(** * efgh: an event function served over the CloudEvents HTTP binding

    A shallow embedding of the Go package [efgh] (src/efgh.go,
    src/handler.go and the earlier draft of the same package) together with
    the properties of its signature analysis ([wrap]), its protocol decoder
    ([convertBinary], [convertStructured]), its invoker ([Invoke]) and its
    HTTP endpoint ([ServeHTTP]).

    The Go standard library is not part of the package.  What the package
    uses of it is modelled as follows:

    - [reflect]: a type descriptor is a record holding what the package asks
      of a [reflect.Type] (kind, printed name, element type, parameter and
      result types, method set);
    - [net/http]: a header is a finite map from canonical keys to value
      lists, with [textproto]'s key canonicalisation written out; a response
      writer is a record updated by [WriteHeader] and [Write];
    - [context]: a context is the chain of its [WithValue] layers;
    - [time.Parse], [encoding/json] and the quoting of [time.ParseError] are
      operations of the environment class [GoEnv]: every theorem holds for
      each implementation of them. *)

From Stdlib Require Import ZArith String Ascii List Lia.
From Stdlib.Strings Require Import Byte.
From stdpp Require Import base option strings gmap list.

Open Scope string_scope.

Set Warnings "-register-all".

(** ** reflect: type descriptors *)

Module reflect.

(** [reflect.Kind], in the order of the Go declaration. *)
Inductive Kind :=
| Invalid | Bool | Int | Int8 | Int16 | Int32 | Int64
| Uint | Uint8 | Uint16 | Uint32 | Uint64 | Uintptr
| Float32 | Float64 | Complex64 | Complex128
| Array | Chan | Func | Interface | Map | Pointer | Slice
| String | Struct | UnsafePointer.

#[global] Instance Kind_eq_dec : EqDecision Kind.
Proof. solve_decision. Defined.

(** A method of a method set: its name and its printed signature. *)
Record Method := mkMethod { mname : string; msig : string }.

#[global] Instance Method_eq_dec : EqDecision Method.
Proof. solve_decision. Defined.

(** What the package reads off a [reflect.Type].  [Name] is the result of
    [String()], which the [%v] verb prints.  [elem] is the element type of a
    slice, array, pointer, channel or map; [ins] and [outs] are the parameter
    and result types of a function type. *)
Inductive rtype := mkType {
  Name : string;
  kind : Kind;
  elem : option rtype;
  ins : list rtype;
  outs : list rtype;
  methods : list Method
}.

Definition NumIn (t : rtype) : nat := length (ins t).
Definition NumOut (t : rtype) : nat := length (outs t).

(** [t.In(i)] and [t.Out(i)]; [None] stands for the index-out-of-range
    panic. *)
Definition In (t : rtype) (i : nat) : option rtype := ins t !! i.
Definition Out (t : rtype) (i : nat) : option rtype := outs t !! i.

(** [t.Implements(u)] for an interface type [u]: every method of [u] is in
    the method set of [t]. *)
Definition Implements (t u : rtype) : bool :=
  forallb (fun m => bool_decide (m ∈ methods t)) (methods u).

(** [t.Kind() == reflect.Slice && t.Elem().Kind() == reflect.Uint8].  The
    second operand is evaluated only when the first holds, and a slice type
    always has an element type. *)
Definition isByteSlice (t : rtype) : bool :=
  bool_decide (kind t = Slice) &&
  match elem t with
  | Some e => bool_decide (kind e = Uint8)
  | None => false
  end.

Definition isStruct (t : rtype) : bool := bool_decide (kind t = Struct).

End reflect.

(** The interface type [context.Context], which [wrap] obtains by
    reflection on a nil pointer to it. *)
Definition ctxType : reflect.rtype :=
  reflect.mkType "context.Context" reflect.Interface None [] []
    [ reflect.mkMethod "Deadline" "func() (time.Time, bool)";
      reflect.mkMethod "Done" "func() <-chan struct {}";
      reflect.mkMethod "Err" "func() error";
      reflect.mkMethod "Value" "func(interface {}) interface {}" ].

(** The dynamic type of the contexts [context.WithValue] returns.  The
    other contexts of the [context] package have the same method set. *)
Definition valueCtxType : reflect.rtype :=
  reflect.mkType "*context.valueCtx" reflect.Pointer
    (Some (reflect.mkType "context.valueCtx" reflect.Struct None [] [] []))
    [] []
    [ reflect.mkMethod "Deadline" "func() (time.Time, bool)";
      reflect.mkMethod "Done" "func() <-chan struct {}";
      reflect.mkMethod "Err" "func() error";
      reflect.mkMethod "String" "func() string";
      reflect.mkMethod "Value" "func(interface {}) interface {}" ].

(** The interface type [error], obtained the same way. *)
Definition errType : reflect.rtype :=
  reflect.mkType "error" reflect.Interface None [] []
    [ reflect.mkMethod "Error" "func() string" ].

(** ** time: instants and parse errors *)

Module time.

(** An instant as [time.Date] builds it: civil date and clock reading, with
    the zone's offset in seconds east of UTC. *)
Record Time := Date {
  year : Z; month : Z; day : Z;
  hour : Z; minute : Z; second : Z; nsec : Z;
  offset : Z
}.

(** The zero value [time.Time{}]: January 1, year 1, 00:00:00 UTC. *)
Definition zero : Time := Date 1 1 1 0 0 0 0 0.

Definition RFC3339 : string := "2006-01-02T15:04:05Z07:00".

(** [time.ParseError] *)
Record ParseError := mkParseError {
  Layout : string;
  Value : string;
  LayoutElem : string;
  ValueElem : string;
  Message : string
}.

End time.

(** ** error values

    The package only ever calls [Error()] on an error.  Three shapes are told
    apart: the [*errors.errorString] built by [errors.New] and [fmt.Errorf],
    the [*time.ParseError] of [time.Parse], and any other implementation
    (JSON, I/O and user errors), known by its message. *)
Inductive error :=
| errorString (s : string)
| timeParseError (e : time.ParseError)
| dynError (msg : string).

(** ** net/http: headers, requests, response writers *)

Module http.

Definition MethodPost : string := "POST".

Definition StatusOK : nat := 200.
Definition StatusMethodNotAllowed : nat := 405.
Definition StatusExpectationFailed : nat := 417.
Definition StatusInternalServerError : nat := 500.

(** [textproto]'s table of the bytes a header field name may hold: letters,
    digits and the token punctuation of RFC 7230. *)
Definition isLower (c : ascii) : bool :=
  (97 <=? nat_of_ascii c)%nat && (nat_of_ascii c <=? 122)%nat.
Definition isUpper (c : ascii) : bool :=
  (65 <=? nat_of_ascii c)%nat && (nat_of_ascii c <=? 90)%nat.
Definition isDigit (c : ascii) : bool :=
  (48 <=? nat_of_ascii c)%nat && (nat_of_ascii c <=? 57)%nat.

Definition validHeaderFieldByte (c : ascii) : bool :=
  isLower c || isUpper c || isDigit c ||
  existsb (Ascii.eqb c) (list_ascii_of_string "!#$%&'*+-.^_`|~").

Definition toUpper (c : ascii) : ascii := ascii_of_nat (nat_of_ascii c - 32).
Definition toLower (c : ascii) : ascii := ascii_of_nat (nat_of_ascii c + 32).

(** The rewriting loop of [canonicalMIMEHeaderKey]: the first letter and
    every letter after a dash in upper case, all other letters in lower
    case. *)
Fixpoint canonicalize (upper : bool) (s : string) : string :=
  match s with
  | EmptyString => EmptyString
  | String c rest =>
      let c' :=
        if upper && isLower c then toUpper c
        else if negb upper && isUpper c then toLower c
        else c in
      String c' (canonicalize (Ascii.eqb c' "-") rest)
  end.

(** [textproto.CanonicalMIMEHeaderKey]: a key holding a byte that is not a
    header field byte (a space among them) is returned unchanged. *)
Definition CanonicalMIMEHeaderKey (s : string) : string :=
  if forallb validHeaderFieldByte (list_ascii_of_string s)
  then canonicalize true s
  else s.

(** [http.Header] is [map[string][]string]. *)
Abbreviation Header := (gmap string (list string)).

(** [h.Get(key)]: the first value under the canonical form of [key], the
    empty string when there is none. *)
Definition Get (h : Header) (key : string) : string :=
  match h !! CanonicalMIMEHeaderKey key with
  | Some (v :: _) => v
  | _ => ""
  end.

(** [h.Set(key, value)] *)
Definition Set_ (h : Header) (key value : string) : Header :=
  <[CanonicalMIMEHeaderKey key := [value]]> h.

(** [h.Add(key, value)], by which the server stores each header line it
    receives. *)
Definition Add (h : Header) (key value : string) : Header :=
  <[CanonicalMIMEHeaderKey key :=
      (default [] (h !! CanonicalMIMEHeaderKey key) ++ [value])%list]> h.

(** The state behind an [http.ResponseWriter]: the header map the handler
    may still edit, the status line and header block once [WriteHeader] has
    sent them, and the body bytes written so far. *)
Record ResponseWriter := mkResponseWriter {
  header : Header;
  sent : option (nat * Header);
  body : list byte
}.

Definition newResponseWriter : ResponseWriter := mkResponseWriter ∅ None [].

(** [rw.WriteHeader(code)]: sends the status line and the header map as it
    stands; a second call is ignored. *)
Definition WriteHeader (code : nat) (rw : ResponseWriter) : ResponseWriter :=
  match sent rw with
  | Some _ => rw
  | None => mkResponseWriter (header rw) (Some (code, header rw)) (body rw)
  end.

(** [rw.Write(b)]: an implicit [WriteHeader(200)] when no status was sent,
    then the bytes. *)
Definition Write (b : list byte) (rw : ResponseWriter) : ResponseWriter :=
  let rw := WriteHeader StatusOK rw in
  mkResponseWriter (header rw) (sent rw) (body rw ++ b)%list.

(** [rw.Header().Set(key, value)] *)
Definition SetHeader (key value : string) (rw : ResponseWriter) : ResponseWriter :=
  mkResponseWriter (Set_ (header rw) key value) (sent rw) (body rw).

(** What the handler has determined of the response once it has returned:
    the status, the header map as it stood when the status line was sent,
    and the body.  A handler that never wrote gets an empty 200.  The
    headers the server adds of its own ([Date], [Content-Length], a detected
    [Content-Type]) are not part of it. *)
Record Response := mkResponse {
  StatusCode : nat;
  ResponseHeader : Header;
  ResponseBody : list byte
}.

Definition finish (rw : ResponseWriter) : Response :=
  match sent rw with
  | Some (code, h) => mkResponse code h (body rw)
  | None => mkResponse StatusOK (header rw) (body rw)
  end.

(** A request body as an [io.Reader]: the chunks successive [Read] calls
    deliver, then [io.EOF] ([None]) or a read error. *)
Record Reader := mkReader {
  chunks : list (list byte);
  failure : option error
}.

End http.

(** [ioutil.ReadAll]: everything read up to the end of the stream, and the
    error that stopped the reading, if any. *)
Definition ReadAll (r : http.Reader) : list byte * option error :=
  (concat (http.chunks r), http.failure r).

(** ** The CloudEvents context (src/efgh.go) *)

Record CloudEventContext := mkCloudEventContext {
  EventType : string;
  EventTypeVersion : string;
  CloudEventsVersion : string;
  Source : string;
  EventID : string;
  EventTime : time.Time;
  SchemaURL : string;
  ContentType : string;
  Extensions : gmap string (list byte)
}.

(** The zero value [CloudEventContext{}]. *)
Definition zeroCloudEventContext : CloudEventContext :=
  mkCloudEventContext "" "" "" "" "" time.zero "" "" ∅.

(** ** context: value chains *)

Module context.

(** A context key is an interface value, compared by dynamic type and
    value.  [key] is the unexported integer type of this package; no other
    package can build a value of it, so every key made elsewhere is an
    [otherKey]. *)
Inductive Key :=
| key (n : Z)
| otherKey (type_ value : string).

#[global] Instance Key_eq_dec : EqDecision Key.
Proof. solve_decision. Defined.

(** The values this package stores in a context, and those of others. *)
Inductive Val :=
| cloudEvent (c : CloudEventContext)
| headers (h : http.Header)
| otherVal (tag : string).

(** A [context.Context]: the background context under its [WithValue],
    cancellation and deadline layers. *)
Inductive Context :=
| Background
| WithValue (parent : Context) (k : Key) (v : Val)
| WithCancel (parent : Context).

(** [ctx.Value(k)]: the value of the innermost layer stored under [k];
    [None] stands for the nil interface. *)
Fixpoint Value (ctx : Context) (k : Key) : option Val :=
  match ctx with
  | Background => None
  | WithValue parent k' v => if decide (k' = k) then Some v else Value parent k
  | WithCancel parent => Value parent k
  end.

End context.

(** [http.Request], as far as the handler reads it. *)
Record Request := mkRequest {
  Method : string;
  Header : http.Header;
  Body : http.Reader;
  Context : context.Context
}.

(** ** Go values handed to and returned by the user function

    [VNil] is the nil interface value; [VError] is any non-nil value whose
    dynamic type implements [error]; [VObj] is any other value (a struct
    among them), opaque to the package. *)
Inductive value {Obj : Type} :=
| VNil
| VContext (ctx : context.Context)
| VBytes (b : list byte)
| VError (e : error)
| VObj (o : Obj).
Arguments value : clear implicits.

(** ** The environment: standard-library operations the package calls *)

Class GoEnv := {
  (** opaque Go values *)
  Obj : Type;
  (** [time.Parse(layout, value)] *)
  time_Parse : string -> string -> time.Time + time.ParseError;
  (** the quoting of strings in a [time.ParseError] message *)
  time_quote : string -> string;
  (** [json.Unmarshal(data, reflect.New(t).Interface())]: the decoded value
      of type [t], or the decoding error *)
  json_Unmarshal : list byte -> reflect.rtype -> Obj + error;
  (** [json.Marshal(v)] *)
  json_Marshal : value Obj -> list byte + error;
  (** [reflect.Zero(t)] *)
  reflect_Zero : reflect.rtype -> value Obj
}.

Abbreviation Value := (value Obj).

(** The [Error()] method of [time.ParseError]. *)
Definition ParseError_Error `{GoEnv} (e : time.ParseError) : string :=
  if String.eqb (time.Message e) "" then
    "parsing time " ++ time_quote (time.Value e) ++ " as " ++
    time_quote (time.Layout e) ++ ": cannot parse " ++
    time_quote (time.ValueElem e) ++ " as " ++ time_quote (time.LayoutElem e)
  else
    "parsing time " ++ time_quote (time.Value e) ++ time.Message e.

(** [err.Error()] *)
Definition Error `{GoEnv} (err : error) : string :=
  match err with
  | errorString s => s
  | timeParseError e => ParseError_Error e
  | dynError msg => msg
  end.

(** [fmt.Errorf] on a format with one [%v] verb printing a type:
    [before] and [after] are the text around the verb. *)
Definition fmt_Errorf (before : string) (t : reflect.rtype) (after : string) : error :=
  errorString (before ++ reflect.Name t ++ after).

(** [io.WriteString] hands the bytes of the string to [Write]. *)
Definition bytes (s : string) : list byte := list_byte_of_string s.

(** ** The outcome of a Go call: a result, an error, or a panic *)

Inductive Result (A : Type) :=
| Ok (a : A)
| Err (e : error)
| Panic.
Arguments Ok {A} a.
Arguments Err {A} e.
Arguments Panic {A}.

#[global] Instance Result_ret : MRet Result := fun A a => Ok a.
#[global] Instance Result_bind : MBind Result := fun A B k m =>
  match m with
  | Ok a => k a
  | Err e => Err e
  | Panic => Panic
  end.

(** An index expression: out of range, it panics. *)
Definition index {A : Type} (o : option A) : Result A :=
  match o with
  | Some a => Ok a
  | None => Panic
  end.

(** ** The handler (src/handler.go) *)

(** The content of a non-nil [interface{}]: its dynamic type and, when it is
    a function, what a call of it returns. *)
Record Dyn `{GoEnv} := mkDyn {
  dynType : reflect.rtype;
  dynCall : list Value -> list Value
}.
Arguments mkDyn {_} _ _.

(** [reflect.TypeOf(i)], nil for the nil interface. *)
Definition TypeOf `{GoEnv} (i : option Dyn) : option reflect.rtype :=
  dynType <$> i.

(** [functionHandler]; [f] is [reflect.ValueOf(function)], the zero
    [reflect.Value] ([None]) for the nil interface. *)
Record functionHandler `{GoEnv} := mkFunctionHandler {
  f : option Dyn;
  needsContext : bool;
  hasError : bool;
  inType : option reflect.rtype;
  outType : option reflect.rtype
}.
Arguments mkFunctionHandler {_} _ _ _ _ _.

Section Wrap.
Context `{GoEnv}.

Definition set_needsContext (b : bool) (h : functionHandler) : functionHandler :=
  mkFunctionHandler (f h) b (hasError h) (inType h) (outType h).
Definition set_hasError (b : bool) (h : functionHandler) : functionHandler :=
  mkFunctionHandler (f h) (needsContext h) b (inType h) (outType h).
Definition set_inType (t : reflect.rtype) (h : functionHandler) : functionHandler :=
  mkFunctionHandler (f h) (needsContext h) (hasError h) (Some t) (outType h).
Definition set_outType (t : reflect.rtype) (h : functionHandler) : functionHandler :=
  mkFunctionHandler (f h) (needsContext h) (hasError h) (inType h) (Some t).

(** [wrap]: convert a function to an HTTP handler.  A nil [function] has a
    nil type, on which [t.Kind()] panics. *)
Definition wrap (function : option Dyn) : Result functionHandler :=
  let h := mkFunctionHandler function false false None None in
  t ← index (TypeOf function);
  if negb (bool_decide (reflect.kind t = reflect.Func)) then
    Err (fmt_Errorf "" t " is not a function")
  else if (2 <? reflect.NumIn t)%nat then
    Err (fmt_Errorf "" t " takes too many arguments")
  else
  h ← (if (0 <? reflect.NumIn t)%nat then
         t0 ← index (reflect.In t 0);
         if reflect.Implements t0 ctxType
         then Ok (set_needsContext true h)
         else Ok (set_inType t0 h)
       else Ok h : Result functionHandler);
  h ← (if (reflect.NumIn t =? 2)%nat then
         if negb (needsContext h) then
           Err (fmt_Errorf "First argument must be of type context.Context: " t "")
         else
           t1 ← index (reflect.In t 1);
           Ok (set_inType t1 h)
       else Ok h : Result functionHandler);
  if (2 <? reflect.NumOut t)%nat then
    Err (fmt_Errorf "" t " returns too many outputs")
  else
  h ← (if (0 <? reflect.NumOut t)%nat then
         t0 ← index (reflect.Out t 0);
         if reflect.Implements t0 errType
         then Ok (set_hasError true h)
         else Ok (set_outType t0 h)
       else Ok h : Result functionHandler);
  h ← (if (reflect.NumOut t =? 2)%nat then
         if hasError h then
           Err (fmt_Errorf "Must return (data, error) with two arguments: " t "")
         else
           t1 ← index (reflect.Out t 1);
           if negb (reflect.Implements t1 errType) then
             Err (fmt_Errorf "Must return (data, error) with two arguments: " t "")
           else Ok (set_hasError true h)
       else Ok h : Result functionHandler);
  (Ok h : Result functionHandler).

End Wrap.

(** ** The accessor of src/efgh.go *)

(** [var contextKey key]: the zero value of the package's key type. *)
Definition contextKey : context.Key := context.key 0.

(** [CloudEvent]: the type assertion fails on a nil interface and on a value
    of any other type, leaving the zero [CloudEventContext]. *)
Definition CloudEvent (ctx : context.Context) : CloudEventContext * bool :=
  match context.Value ctx contextKey with
  | Some (context.cloudEvent r) => (r, true)
  | _ => (zeroCloudEventContext, false)
  end.

Definition set_EventTime (t : time.Time) (c : CloudEventContext) : CloudEventContext :=
  mkCloudEventContext (EventType c) (EventTypeVersion c) (CloudEventsVersion c)
    (Source c) (EventID c) t (SchemaURL c) (ContentType c) (Extensions c).

(** ** The state a request runs in

    A method body runs against its receiver, the response writer and the
    user function.  The machine state holds the receiver as the method sees
    it, the response writer, and the argument lists of the calls made to the
    user function so far.  A computation delivers [None] when it panics. *)

Record Machine `{GoEnv} := mkMachine {
  recv : functionHandler;
  rw : http.ResponseWriter;
  calls : list (list Value)
}.
Arguments mkMachine {_} _ _ _.

Definition M `{GoEnv} (A : Type) : Type := Machine -> option A * Machine.

#[global] Instance M_ret `{GoEnv} : MRet M := fun A a s => (Some a, s).
#[global] Instance M_bind `{GoEnv} : MBind M := fun A B k m s =>
  match m s with
  | (Some a, s') => k a s'
  | (None, s') => (None, s')
  end.

Section Handler.
Context `{GoEnv}.

Definition panic {A : Type} : M A := fun s => (None, s).

(** Reading the receiver [fh]. *)
Definition receiver : M functionHandler := fun s => (Some (recv s), s).

(** An expression of a method body that may panic. *)
Definition lift {A : Type} (o : option A) : M A := fun s => (o, s).

(** Whether [Call] accepts the value [v] for a parameter of type [t].  A
    context built by this package is a [*context.valueCtx], assignable to
    the interface types it implements; the payload is a [[]byte], assignable
    to the byte-slice types; every other argument is made from [t] itself. *)
Definition assignable (v : Value) (t : reflect.rtype) : bool :=
  match v with
  | VContext _ =>
      bool_decide (reflect.kind t = reflect.Interface) &&
      reflect.Implements valueCtxType t
  | VBytes _ => reflect.isByteSlice t
  | _ => true
  end.

(** What [Call] demands of the function value [d] and of [args]: a
    function, as many arguments as parameters, each assignable to its
    parameter. *)
Definition callable (d : Dyn) (args : list Value) : bool :=
  bool_decide (reflect.kind (dynType d) = reflect.Func) &&
  (length args =? reflect.NumIn (dynType d))%nat &&
  forallb (fun p => assignable (fst p) (snd p)) (zip args (reflect.ins (dynType d))).

(** [fh.f.Call(args)]: panics on the zero [reflect.Value] and when the
    demands of [callable] are not met; otherwise the function runs. *)
Definition Call (args : list Value) : M (list Value) := fun s =>
  match f (recv s) with
  | Some d =>
      if callable d args
      then (Some (dynCall d args), mkMachine (recv s) (rw s) (calls s ++ [args]))
      else (None, s)
  | None => (None, s)
  end.

(** [v.Bytes()]: panics ([None]) unless [v] is a byte slice. *)
Definition Bytes (v : Value) : option (list byte) :=
  match v with
  | VBytes b => Some b
  | _ => None
  end.

(** [v.Interface().(error)] in its two-result form: on a value that is no
    error the first result is nil. *)
Definition assertError (v : Value) : option error * bool :=
  match v with
  | VError e => (Some e, true)
  | _ => (None, false)
  end.

(** The effect of a call on the response writer. *)
Definition writer (g : http.ResponseWriter -> http.ResponseWriter) : M unit :=
  fun s => (Some tt, mkMachine (recv s) (g (rw s)) (calls s)).

(** The first half of the body of [Invoke] (handler.go, lines 29 to 46):
    the argument list of the call, or the error [Invoke] returns without
    calling. *)
Definition Invoke_arguments (fh : functionHandler) (ctx : context.Context)
    (in_ : list byte) : list Value + error :=
  let args : list Value := [] in
  let args := if needsContext fh then (args ++ [VContext ctx])%list else args in
  match inType fh with
  | Some t =>
      if reflect.isByteSlice t then inl (args ++ [VBytes in_])%list
      else if reflect.isStruct t then
        match json_Unmarshal in_ t with
        | inr err => inr err
        | inl data => inl (args ++ [VObj data])%list
        end
      else inr (fmt_Errorf "Unable to unmarshall type: " t "")
  | None => inl args
  end.

(** The second half (lines 49 to 64): the results [out] and [err] of
    [Invoke], from the results of the call.  [None] is a panic: an index out
    of range, or [Bytes] on a value that is no byte slice.  On an empty
    [response] the index [len(response)-1] is out of range, and so is
    [length response - 1], which is then 0.  The assignment
    [err, ok = ... .(error)] overwrites [err] whether or not the assertion
    holds. *)
Definition Invoke_results (fh : functionHandler) (response : list Value)
  : option (list byte * option error) :=
  encoded ←
    match outType fh with
    | Some t =>
        if reflect.isByteSlice t then
          r0 ← response !! 0;
          out ← Bytes r0;
          Some (inl (out, None))
        else if reflect.isStruct t then
          r0 ← response !! 0;
          match json_Marshal r0 with
          | inl out => Some (inl (out, None))
          | inr err => Some (inl ([], Some err))
          end
        else Some (inr (fmt_Errorf "Unable to marshal type: " t ""))
    | None => Some (inl ([], None))
    end;
  match encoded : list byte * option error + error with
  | inr err => Some ([], Some err)
  | inl (out, err) =>
      if hasError fh then
        last ← response !! (length response - 1);
        Some (out, fst (assertError last))
      else Some (out, err)
  end.

(** [functionHandler.Invoke] *)
Definition Invoke (ctx : context.Context) (in_ : list byte)
  : M (list byte * option error) :=
  fh ← receiver;
  match Invoke_arguments fh ctx in_ with
  | inr err => mret ([], Some err)
  | inl args =>
      response ← Call args;
      lift (Invoke_results fh response)
  end.

(** [convertStructured]: structured content mode is refused. *)
Definition convertStructured (req : Request) : Result (list byte * context.Context) :=
  Err (errorString "structured output not supported yet").

(** [convertBinary]: binary content mode.  The three results of the Go
    function are either the payload and the context, with a nil error, or
    nil, nil and the error. *)
Definition convertBinary (req : Request) : Result (list byte * context.Context) :=
  let cex :=
    mkCloudEventContext
      (http.Get (Header req) "CE-EventType")
      (http.Get (Header req) "CE-EventTypeVersion")
      (http.Get (Header req) "CE-CloudEventsVersion")
      (http.Get (Header req) "CE-Source")
      (http.Get (Header req) "CE-EventID")
      time.zero
      (http.Get (Header req) "CE-SchemaURL")
      (http.Get (Header req) "Content-Type")
      ∅ in
  let ts := http.Get (Header req) "CE-EventTime" in
  cex ← (if negb (String.eqb ts "") then
           match time_Parse time.RFC3339 (http.Get (Header req) "CE-EventTime") with
           | inl t => Ok (set_EventTime t cex)
           | inr err => Err (timeParseError err)
           end
         else Ok cex : Result CloudEventContext);
  let ctx := context.WithValue (Context req) contextKey (context.cloudEvent cex) in
  let '(in_, err) := ReadAll (Body req) in
  match err with
  | Some err => Err err
  | None => Ok (in_, ctx)
  end.

(** [functionHandler.ServeHTTP] *)
Definition ServeHTTP (req : Request) : M unit :=
  if negb (String.eqb (Method req) http.MethodPost) then
    writer (http.WriteHeader http.StatusMethodNotAllowed)
  else
    let converted :=
      if String.prefix "application/cloudevents" (http.Get (Header req) "Content-Type")
      then convertStructured req
      else convertBinary req in
    match converted with
    | Panic => panic
    | Err err =>
        writer (http.SetHeader "Content-Type" "text/plain");;
        writer (http.WriteHeader http.StatusExpectationFailed);;
        writer (http.Write (bytes (Error err)))
    | Ok (in_, ctx) =>
        '(out, err) ← Invoke ctx in_;
        match err with
        | Some err =>
            writer (http.WriteHeader http.StatusInternalServerError);;
            writer (http.Write (bytes (Error err)))
        | None =>
            writer (http.WriteHeader http.StatusOK);;
            writer (http.Write out)
        end
    end.

(** ** Serving

    One request: [ServeHTTP] runs on a fresh response writer with the
    handler as receiver.  [exchange] is what the client observes: the
    response, or [None] when the handler panicked and the server dropped the
    connection. *)
Definition start (fh : functionHandler) : Machine :=
  mkMachine fh http.newResponseWriter [].

Definition exchange (fh : functionHandler) (req : Request) : option http.Response :=
  let '(r, s) := ServeHTTP req (start fh) in
  match r with
  | Some _ => Some (http.finish (rw s))
  | None => None
  end.

(** The argument lists with which a request called the user function. *)
Definition invocations (fh : functionHandler) (req : Request) : list (list Value) :=
  calls (snd (ServeHTTP req (start fh))).

(** The server as [Start] leaves it: the registered handler and the log of
    what it answered.  Go hands [ServeHTTP] a copy of the handler.  The
    model is stricter: serving a request replaces the registered handler by
    the receiver as [ServeHTTP] left it, as if the method held a pointer to
    it, so a write to a field of the receiver would show in the server. *)
Record Server := mkServer {
  handler : functionHandler;
  answered : list (option http.Response)
}.

Definition serve (srv : Server) (req : Request) : Server :=
  let '(r, s) := ServeHTTP req (start (handler srv)) in
  mkServer (recv s)
    (answered srv ++ [match r with Some _ => Some (http.finish (rw s)) | None => None end]).

Definition serveAll (reqs : list Request) (srv : Server) : Server :=
  fold_left serve reqs srv.

End Handler.

(** ** The earlier draft of the package (src/unnamed/part_000)

    The draft stores the request's header map in the context, under its own
    key of the package's key type, and reads single headers back through
    [EventTime] and [EventId].  Its handler type [FunctionHandler] has the
    fields of [functionHandler]. *)

Module Draft.

(** [var headerKey key] *)
Definition headerKey : context.Key := context.key 0.

(** [getHeader] *)
Definition getHeader (ctx : context.Context) (key : string) : string :=
  match context.Value ctx headerKey with
  | Some (context.headers h) => http.Get h key
  | _ => ""
  end.

(** [EventId] *)
Definition EventId (ctx : context.Context) : string :=
  getHeader ctx "Ce-Eventid".

Section Handler.
Context `{GoEnv}.

(** [EventTime] *)
Definition EventTime (ctx : context.Context) : time.Time + time.ParseError :=
  let ts := getHeader ctx "Ce-Eventtime" in
  time_Parse time.RFC3339 ts.

(** [t.Kind() == reflect.Array && t.Elem().Kind() == reflect.Uint8] *)
Definition isByteArray (t : reflect.rtype) : bool :=
  bool_decide (reflect.kind t = reflect.Array) &&
  match reflect.elem t with
  | Some e => bool_decide (reflect.kind e = reflect.Uint8)
  | None => false
  end.

(** The first half of the body of [FunctionHandler.Invoke]: the argument
    list, or the error returned without calling; [None] is a panic.  [data]
    is a pointer to a new value of the input type: [json.Unmarshal] fills
    it, [SetBytes] panics on it (a pointer is no byte slice), and otherwise
    the function receives the zero value it points to. *)
Definition Invoke_arguments (fh : functionHandler) (ctx : context.Context)
    (in_ : list byte) : option (list Value + error) :=
  let args : list Value := [] in
  let args := if needsContext fh then (args ++ [VContext ctx])%list else args in
  match inType fh with
  | Some t =>
      if reflect.isStruct t then
        match json_Unmarshal in_ t with
        | inr err => Some (inr err)
        | inl data => Some (inl (args ++ [VObj data])%list)
        end
      else if isByteArray t then None
      else Some (inl (args ++ [reflect_Zero t])%list)
  | None => Some (inl args)
  end.

(** The second half: [out] is never assigned; [err] is what the error
    assertion leaves in it. *)
Definition Invoke_results (fh : functionHandler) (response : list Value)
  : option (list byte * option error) :=
  i ← match outType fh with
      | Some _ => _ ← response !! 0; Some 1
      | None => Some 0
      end;
  if hasError fh then
    last ← response !! i;
    Some ([], fst (assertError last))
  else Some ([], None).

(** [FunctionHandler.Invoke] *)
Definition Invoke (ctx : context.Context) (in_ : list byte)
  : M (list byte * option error) :=
  fh ← receiver;
  built ← lift (Invoke_arguments fh ctx in_);
  match built with
  | inr err => mret ([], Some err)
  | inl args =>
      response ← Call args;
      lift (Invoke_results fh response)
  end.

(** [FunctionHandler.ServeHTTP] *)
Definition ServeHTTP (req : Request) : M unit :=
  if negb (String.eqb (Method req) http.MethodPost) then
    writer (http.WriteHeader http.StatusMethodNotAllowed)
  else
    let ctx := Context req in
    let ctx := context.WithValue ctx headerKey (context.headers (Header req)) in
    let '(in_, err) := ReadAll (Body req) in
    match err with
    | Some _ => writer (http.WriteHeader http.StatusExpectationFailed)
    | None =>
        '(out, err) ← Invoke ctx in_;
        match err with
        | Some err =>
            writer (http.WriteHeader http.StatusInternalServerError);;
            writer (http.Write (bytes (Error err)))
        | None =>
            writer (http.WriteHeader http.StatusOK);;
            writer (http.Write out)
        end
    end.

(** The argument lists with which a request called the user function. *)
Definition invocations (fh : functionHandler) (req : Request) : list (list Value) :=
  calls (snd (ServeHTTP req (start fh))).

End Handler.

Section Analysis.
Context `{GoEnv}.

(** What the client observes of one request served by the draft. *)
Definition exchange (fh : functionHandler) (req : Request) : option http.Response :=
  let '(r, s) := ServeHTTP req (start fh) in
  match r with
  | Some _ => Some (http.finish (rw s))
  | None => None
  end.

(** The draft formats its errors with [%r], a verb [fmt] does not know.
    What [fmt] prints for it, applied to a type, is left open. *)
Variable badVerb : reflect.rtype -> string.

Definition Errorf_r (before : string) (t : reflect.rtype) (after : string) : error :=
  errorString (before ++ badVerb t ++ after).

(** [wrap] of the draft. *)
Definition wrap (function : option Dyn) : Result functionHandler :=
  let h := mkFunctionHandler function false false None None in
  t ← index (TypeOf function);
  if negb (bool_decide (reflect.kind t = reflect.Func)) then
    Err (Errorf_r "" t " is not a function")
  else if (2 <? reflect.NumIn t)%nat then
    Err (Errorf_r "" t " takes too many arguments")
  else
  h ← (if (0 <? reflect.NumIn t)%nat then
         t0 ← index (reflect.In t 0);
         if reflect.Implements t0 ctxType
         then Ok (set_needsContext true h)
         else Ok (set_inType t0 h)
       else Ok h : Result functionHandler);
  h ← (if (reflect.NumIn t =? 2)%nat then
         if negb (needsContext h) then
           Err (Errorf_r "First argument must be of type context.Context: " t "")
         else
           t1 ← index (reflect.In t 1);
           Ok (set_inType t1 h)
       else Ok h : Result functionHandler);
  if (2 <? reflect.NumOut t)%nat then
    Err (Errorf_r "" t " returns too many outputs")
  else
  h ← (if (0 <? reflect.NumOut t)%nat then
         t0 ← index (reflect.Out t 0);
         if reflect.Implements t0 errType
         then Ok (set_hasError true h)
         else Ok (set_outType t0 h)
       else Ok h : Result functionHandler);
  h ← (if (reflect.NumOut t =? 2)%nat then
         if hasError h then
           Err (Errorf_r "Must return (data, error) with two arguments: " t "")
         else
           t1 ← index (reflect.Out t 1);
           if negb (reflect.Implements t1 errType) then
             Err (Errorf_r "Must return (data, error) with two arguments: " t "")
           else Ok (set_hasError true h)
       else Ok h : Result functionHandler);
  (Ok h : Result functionHandler).

End Analysis.

End Draft.

(** ** The vocabulary of the specification and of the theorems

    The definitions below follow the words of the specification, or name
    what the theorems say of the code; the theorems compare them with the
    code above. *)

(** The five signature errors of the specification. *)
Inductive SignatureError :=
| NotAFunction
| TooManyArguments
| ContextMustBeFirst
| TooManyReturnValues
| InvalidErrorPosition.

(** The error by which [wrap] reports each of them. *)
Definition signatureError (k : SignatureError) (t : reflect.rtype) : error :=
  match k with
  | NotAFunction => errorString (reflect.Name t ++ " is not a function")
  | TooManyArguments => errorString (reflect.Name t ++ " takes too many arguments")
  | ContextMustBeFirst =>
      errorString ("First argument must be of type context.Context: " ++ reflect.Name t)
  | TooManyReturnValues => errorString (reflect.Name t ++ " returns too many outputs")
  | InvalidErrorPosition =>
      errorString ("Must return (data, error) with two arguments: " ++ reflect.Name t)
  end.

Definition isCtx (t : reflect.rtype) : bool := reflect.Implements t ctxType.
Definition isErr (t : reflect.rtype) : bool := reflect.Implements t errType.

(** The contract of the analyzer, check by check: the input is a callable;
    at most two parameters; of two parameters the first is a context; at
    most two return values; of two return values the second is an error and
    the first is not.  The result is the first check that fails. *)
Definition violation (t : reflect.rtype) : option SignatureError :=
  if negb (bool_decide (reflect.kind t = reflect.Func)) then Some NotAFunction
  else
    match reflect.ins t with
    | _ :: _ :: _ :: _ => Some TooManyArguments
    | [c; _] => if isCtx c then None else Some ContextMustBeFirst
    | _ => None
    end ∪
    match reflect.outs t with
    | _ :: _ :: _ :: _ => Some TooManyReturnValues
    | [d; e] => if isErr e && negb (isErr d) then None else Some InvalidErrorPosition
    | _ => None
    end.

(** Data, in a legal shape: a byte sequence or a decodable record. *)
Definition isData (t : reflect.rtype) : bool :=
  reflect.isByteSlice t || reflect.isStruct t.

(** The legal parameter lists [()], [(Ctx)], [(Data)], [(Ctx, Data)]. *)
Definition legalParams (ins : list reflect.rtype) : bool :=
  match ins with
  | [] => true
  | [a] => isCtx a || isData a
  | [c; d] => isCtx c && isData d
  | _ => false
  end.

(** The legal return lists [()], [(Err)], [(Data)], [(Data, Err)]. *)
Definition legalReturns (outs : list reflect.rtype) : bool :=
  match outs with
  | [] => true
  | [a] => isErr a || isData a
  | [d; e] => isData d && negb (isErr d) && isErr e
  | _ => false
  end.

Definition legalShape (t : reflect.rtype) : bool :=
  bool_decide (reflect.kind t = reflect.Func) &&
  legalParams (reflect.ins t) && legalReturns (reflect.outs t).

(** The data parameter of a parameter list: the parameter that is not the
    leading context. *)
Definition dataParam (ins : list reflect.rtype) : option reflect.rtype :=
  match ins with
  | [a] => if isCtx a then None else Some a
  | [_; d] => Some d
  | _ => None
  end.

(** The data return of a return list: the first return value, unless it is
    the error. *)
Definition dataReturn (outs : list reflect.rtype) : option reflect.rtype :=
  match outs with
  | [a] => if isErr a then None else Some a
  | [d; _] => Some d
  | _ => None
  end.

(** The binding that matches a signature: the context is needed when the
    first parameter is one, an error is reported when the last return value
    is one, and the input and output types are the data parameter and the
    data return. *)
Definition bindingOf `{GoEnv} (function : option Dyn) (t : reflect.rtype)
  : functionHandler :=
  mkFunctionHandler function
    (match reflect.ins t with c :: _ => isCtx c | [] => false end)
    (match last (reflect.outs t) with Some e => isErr e | None => false end)
    (dataParam (reflect.ins t))
    (dataReturn (reflect.outs t)).


(** A context has a [CloudEventContext] attached when one of its layers
    holds one under [contextKey]. *)
Fixpoint attached (ctx : context.Context) : bool :=
  match ctx with
  | context.Background => false
  | context.WithValue parent k v =>
      (bool_decide (k = contextKey) &&
       match v with context.cloudEvent _ => true | _ => false end)
      || attached parent
  | context.WithCancel parent => attached parent
  end.


(** The CloudEvents context of a binary-mode request with timestamp [t]:
    the six metadata headers and [Content-Type], each as [Get] reads it, and
    no extensions. *)
Definition binaryContext (h : http.Header) (t : time.Time) : CloudEventContext :=
  {| EventType := http.Get h "CE-EventType";
     EventTypeVersion := http.Get h "CE-EventTypeVersion";
     CloudEventsVersion := http.Get h "CE-CloudEventsVersion";
     Source := http.Get h "CE-Source";
     EventID := http.Get h "CE-EventID";
     EventTime := t;
     SchemaURL := http.Get h "CE-SchemaURL";
     ContentType := http.Get h "Content-Type";
     Extensions := ∅ |}.

(** The message the specification gives for a structured-mode request. *)
Definition specStructuredMessage : string :=
  "structured content mode not supported".

(** ** Start (src/efgh.go)

    How [Start] ends: [log.Fatal] has printed a message and ended the
    process; or [wrap] panicked; or the handler is registered under a
    pattern and [http.ListenAndServe] is called on an address, a line having
    been logged. *)
Inductive Started `{GoEnv} :=
| Fatal (message : string)
| Panicked
| Listening (pattern : string) (h : functionHandler) (addr logged : string).

(** [Start]; [getenv] is the process environment. *)
Definition Start `{GoEnv} (getenv : string -> string) (function : option Dyn) : Started :=
  match wrap function with
  | Panic => Panicked
  | Err err => Fatal (Error err)
  | Ok handler =>
      let port := ":" ++ getenv "PORT" in
      Listening "/" handler port ("Listening on " ++ port)
  end.

(** ** More vocabulary *)



(** A context parameter [Call] accepts the package's contexts for: an
    interface type that [*context.valueCtx] implements. *)
Definition contextInterface (t : reflect.rtype) : bool :=
  bool_decide (reflect.kind t = reflect.Interface) &&
  reflect.Implements valueCtxType t.

(** A layer another package puts on a context: a value under a key of its
    own, or a cancellation or deadline. *)
Inductive Layer :=
| valueLayer (type_ value : string) (v : context.Val)
| cancelLayer.

Definition derive (ctx : context.Context) (l : Layer) : context.Context :=
  match l with
  | valueLayer type_ value v => context.WithValue ctx (context.otherKey type_ value) v
  | cancelLayer => context.WithCancel ctx
  end.

(** The header names [convertBinary] reads. *)
Definition decodedHeaders : list string :=
  [ "CE-EventType"; "CE-EventTypeVersion"; "CE-CloudEventsVersion"; "CE-Source";
    "CE-EventID"; "CE-SchemaURL"; "Content-Type"; "CE-EventTime" ].

(** A string with its ASCII upper-case letters in lower case. *)
Fixpoint lower (s : string) : string :=
  match s with
  | EmptyString => EmptyString
  | String c rest =>
      String (if http.isUpper c then http.toLower c else c) (lower rest)
  end.

(** A header name made of header field bytes only. *)
Definition validKey (s : string) : bool :=
  forallb http.validHeaderFieldByte (list_ascii_of_string s).

(** The context the draft builds for a request. *)
Definition draftContextOf (req : Request) : context.Context :=
  context.WithValue (Context req) Draft.headerKey (context.headers (Header req)).

(** The error by which [wrap] of the draft reports each signature error,
    [badVerb] being what [fmt] prints for the verb. *)
Definition draftSignatureError (badVerb : reflect.rtype -> string)
    (k : SignatureError) (t : reflect.rtype) : error :=
  match k with
  | NotAFunction => Draft.Errorf_r badVerb "" t " is not a function"
  | TooManyArguments => Draft.Errorf_r badVerb "" t " takes too many arguments"
  | ContextMustBeFirst =>
      Draft.Errorf_r badVerb "First argument must be of type context.Context: " t ""
  | TooManyReturnValues => Draft.Errorf_r badVerb "" t " returns too many outputs"
  | InvalidErrorPosition =>
      Draft.Errorf_r badVerb "Must return (data, error) with two arguments: " t ""
  end.

(** ** A concrete environment and concrete inputs

    One implementation of [GoEnv], on which the theorems are exercised: a
    parser of RFC 3339 timestamps in UTC with whole seconds, and a JSON codec
    whose values are the JSON texts themselves. *)

Module Demo.

Definition quoteMark : string := String (ascii_of_nat 34) EmptyString.

Definition digit (c : ascii) : option Z :=
  if http.isDigit c then Some (Z.of_nat (nat_of_ascii c) - 48)%Z else None.

Fixpoint number (cs : list ascii) (acc : Z) : option Z :=
  match cs with
  | [] => Some acc
  | c :: rest => d ← digit c; number rest (acc * 10 + d)%Z
  end.

(** The digits of [s] from [start], [len] of them, as a number. *)
Definition field (s : string) (start len : nat) : option Z :=
  let cs := list_ascii_of_string (substring start len s) in
  if (length cs =? len)%nat then number cs 0%Z else None.

Definition daysIn (y m : Z) : Z :=
  if (m =? 2)%Z then
    if ((y mod 4 =? 0) && (negb (y mod 100 =? 0) || (y mod 400 =? 0)))%Z
    then 29%Z else 28%Z
  else if ((m =? 4) || (m =? 6) || (m =? 9) || (m =? 11))%Z then 30%Z
  else 31%Z.

(** [YYYY-MM-DDTHH:MM:SSZ] *)
Definition parseUTC (s : string) : option time.Time :=
  if (String.length s =? 20)%nat
     && String.eqb (substring 4 1 s) "-" && String.eqb (substring 7 1 s) "-"
     && String.eqb (substring 10 1 s) "T" && String.eqb (substring 13 1 s) ":"
     && String.eqb (substring 16 1 s) ":" && String.eqb (substring 19 1 s) "Z"
  then
    y ← field s 0 4; m ← field s 5 2; d ← field s 8 2;
    hh ← field s 11 2; mm ← field s 14 2; ss ← field s 17 2;
    if ((1 <=? m) && (m <=? 12) && (1 <=? d) && (d <=? daysIn y m)
        && (hh <=? 23) && (mm <=? 59) && (ss <=? 59))%Z
    then Some (time.Date y m d hh mm ss 0 0)
    else None
  else None.

Definition Parse (layout value : string) : time.Time + time.ParseError :=
  match parseUTC value with
  | Some t => inl t
  | None => inr (time.mkParseError layout value "2006" value "")
  end.

(** A JSON value is held as its text, [None] being a value with no JSON
    encoding (a struct holding a channel, say). *)
Definition Unmarshal (data : list byte) (t : reflect.rtype)
  : option (list byte) + error :=
  match data with
  | "{"%byte :: _ => inl (Some data)
  | _ => inr (dynError "json: cannot unmarshal into Go value")
  end.

Definition Marshal (v : value (option (list byte))) : list byte + error :=
  match v with
  | VObj (Some text) => inl text
  | VObj None => inr (dynError "json: unsupported type: chan int")
  | _ => inl (bytes "null")
  end.

Definition Zero (t : reflect.rtype) : value (option (list byte)) :=
  if reflect.isByteSlice t then VBytes [] else VObj (Some (bytes "{}")).

#[export] Instance env : GoEnv := {|
  Obj := option (list byte);
  time_Parse := Parse;
  time_quote := fun s => quoteMark ++ s ++ quoteMark;
  json_Unmarshal := Unmarshal;
  json_Marshal := Marshal;
  reflect_Zero := Zero
|}.

(** Types: [int], [uint8], [[]byte], [error], [context.Context], and the
    struct [main.MyData] of the README. *)
Definition basic (name : string) (k : reflect.Kind) : reflect.rtype :=
  reflect.mkType name k None [] [] [].

Definition tInt : reflect.rtype := basic "int" reflect.Int.
Definition tUint8 : reflect.rtype := basic "uint8" reflect.Uint8.
Definition tBytes : reflect.rtype :=
  reflect.mkType "[]uint8" reflect.Slice (Some tUint8) [] [] [].
Definition tMyData : reflect.rtype := basic "main.MyData" reflect.Struct.

Definition func (name : string) (ins outs : list reflect.rtype) : reflect.rtype :=
  reflect.mkType name reflect.Func None ins outs [].

(** A user function of a given type and behaviour. *)
Definition fn (t : reflect.rtype) (body : list Value -> list Value) : Dyn :=
  mkDyn t body.



(** [func(context.Context, main.MyData) (main.MyData, error)], echoing its
    data *)
Definition echo : Dyn :=
  fn (func "func(context.Context, main.MyData) (main.MyData, error)"
        [ctxType; tMyData] [tMyData; errType])
     (fun args => match args with
                  | [_; d] => [d; VNil]
                  | _ => [VNil; VNil]
                  end).


(** [func() (main.MyData, error)], returning a value with no JSON encoding
    and a nil error *)
Definition unencodable : Dyn :=
  fn (func "func() (main.MyData, error)" [] [tMyData; errType])
     (fun _ => [VObj None; VNil]).

(** [func(context.Context) error], succeeding *)
Definition onlyContext : Dyn :=
  fn (func "func(context.Context) error" [ctxType] [errType])
     (fun _ => [VNil]).

Definition handlerOf (function : Dyn) : functionHandler :=
  match wrap (Some function) with
  | Ok h => h
  | _ => mkFunctionHandler None false false None None
  end.

Definition body (s : string) : http.Reader := http.mkReader [bytes s] None.

Definition post (h : http.Header) (b : string) : Request :=
  mkRequest "POST" h (body b) context.Background.

(** The header map the server builds from the header lines of a request. *)
Definition received (lines : list (string * string)) : http.Header :=
  fold_left (fun h line => http.Add h (fst line) (snd line)) lines ∅.

(** [func(int, int, int)] *)
Definition threeArgs : Dyn :=
  fn (func "func(int, int, int)" [tInt; tInt; tInt] []) (fun _ => []).

(** The headers of an event in binary mode. *)
Definition eventHeaders : http.Header :=
  received [ ("CE-EventID", "abc-123");
             ("CE-EventTime", "2020-01-01T00:00:00Z");
             ("content-type", "application/json") ].

(** The header of an event in structured mode. *)
Definition structuredHeaders : http.Header :=
  received [ ("Content-Type", "application/cloudevents+json") ].

(** An event whose timestamp is no RFC 3339 text. *)
Definition badTimeHeaders : http.Header :=
  received [ ("CE-EventID", "abc-123"); ("CE-EventTime", "yesterday") ].

(** The context the draft hands to the user function for [eventHeaders]. *)
Definition draftContext : context.Context :=
  context.WithValue context.Background Draft.headerKey
    (context.headers eventHeaders).

(** The context [convertBinary] builds for [eventHeaders]. *)
Definition eventContext : context.Context :=
  context.WithValue context.Background contextKey
    (context.cloudEvent
       (binaryContext eventHeaders (time.Date 2020 1 1 0 0 0 0 0))).

(** [func([]byte) []byte], returning its payload *)
Definition echoBytes : Dyn :=
  fn (func "func([]uint8) []uint8" [tBytes] [tBytes])
     (fun args => match args with
                  | [b] => [b]
                  | _ => [VBytes []]
                  end).

(** [func(main.MyData) main.MyData] with no error return, returning a value
    with no JSON encoding *)
Definition unencodablePlain : Dyn :=
  fn (func "func(main.MyData) main.MyData" [tMyData] [tMyData])
     (fun _ => [VObj None]).

(** A struct type with the methods of [context.Context]. *)
Definition tMyCtx : reflect.rtype :=
  reflect.mkType "main.MyCtx" reflect.Struct None [] [] (reflect.methods ctxType).

(** [func(main.MyCtx)] *)
Definition takesMyCtx : Dyn :=
  fn (func "func(main.MyCtx)" [tMyCtx] []) (fun _ => []).

(** [func([]byte)] and [func([16]byte)], for the draft *)
Definition takesBytes : Dyn :=
  fn (func "func([]uint8)" [tBytes] []) (fun _ => []).

Definition tByteArray : reflect.rtype :=
  reflect.mkType "[16]uint8" reflect.Array (Some tUint8) [] [] [].

Definition takesByteArray : Dyn :=
  fn (func "func([16]uint8)" [tByteArray] []) (fun _ => []).

(** A body whose reading fails after three bytes. *)
Definition brokenBody : http.Reader :=
  http.mkReader [bytes "{ x"] (Some (dynError "unexpected EOF")).

Definition brokenPost (h : http.Header) : Request :=
  mkRequest "POST" h brokenBody context.Background.

Definition get (h : http.Header) : Request :=
  mkRequest "GET" h (body "") context.Background.

(** A process environment with [PORT=8080]. *)
Definition getenv (name : string) : string :=
  if String.eqb name "PORT" then "8080" else "".

(** The rendering of [%r] taken for the examples. *)
Definition badVerb (t : reflect.rtype) : string :=
  "%!r(" ++ reflect.Name t ++ ")".

End Demo.


(** ** Proof tools *)

(** Unfold the operations of the machine monad. *)
Ltac run :=
  unfold receiver, Call, lift, panic, writer, mbind, M_bind, mret, M_ret;
  simpl.

(** Two closed terms differ: compute them, then compare constructors. *)
Ltac differs :=
  let X := fresh in intros X; vm_compute in X; discriminate X.

(** Case analysis on every test the goal still branches on. *)
Ltac cases :=
  repeat (case_match; simpl in *; simplify_eq; try done; try congruence).

(** * Properties *)

(** ** Strings and lists *)

Lemma append_empty_r (s : string) : s +:+ "" = s.
Proof.
  induction s as [|c s IH]; [reflexivity|].
  change (String c (s +:+ "") = String c s). by rewrite IH.
Qed.

Lemma prefix_append (p s : string) : String.prefix p (p +:+ s) = true.
Proof.
  induction p as [|c p IH]; [by destruct s |].
  change (String.prefix (String c p) (String c (p +:+ s)) = true).
  cbn [String.prefix]. destruct (ascii_dec c c); [done | congruence].
Qed.

Lemma lookup_last {A : Type} (l : list A) : l !! (length l - 1) = last l.
Proof.
  induction l as [|a [|b l] IH]; [done..|].
  simpl in *. by rewrite Nat.sub_0_r in IH.
Qed.

(** ** Signature analysis *)

Section WrapFacts.
Context `{GoEnv}.

(** [wrap] agrees with the analyzer's contract: it reports the first check
    that fails, by that check's own message, and otherwise returns the
    binding that matches the signature. *)
Lemma wrap_characterised (d : Dyn) :
  wrap (Some d) =
  match violation (dynType d) with
  | Some k => Err (signatureError k (dynType d))
  | None => Ok (bindingOf (Some d) (dynType d))
  end.
Proof.
  destruct d as [[name k el ins outs ms] call].
  unfold wrap, violation, bindingOf, fmt_Errorf, signatureError; simpl.
  unfold reflect.NumIn, reflect.NumOut, reflect.In, reflect.Out; simpl.
  rewrite !append_empty_r.
  case_bool_decide; simpl; [|done].
  destruct ins as [|a [|b [|c ins]]]; simpl.
  all: destruct outs as [|x [|y [|z outs]]]; simpl.
  all: unfold isCtx, isErr, set_needsContext, set_inType, set_hasError,
         set_outType; simpl.
  all: repeat match goal with
       | |- context [reflect.Implements ?t ?u] =>
           destruct (reflect.Implements t u) eqn:?; simpl
       end.
  all: reflexivity.
Qed.

(** A legal shape passes every check of the analyzer. *)
Lemma legal_no_violation (t : reflect.rtype) :
  legalShape t = true -> violation t = None.
Proof.
  unfold legalShape, violation, legalParams, legalReturns.
  intros Hl. apply andb_prop in Hl as [Hl Hr]. apply andb_prop in Hl as [Hk Hp].
  rewrite Hk. simpl.
  destruct (reflect.ins t) as [|a [|b [|c ins]]]; try done.
  all: destruct (reflect.outs t) as [|x [|y [|z outs]]]; try done.
  all: simpl in *.
  all: repeat match goal with
       | H : _ && _ = true |- _ => apply andb_prop in H as [? ?]
       | H : negb _ = true |- _ => apply negb_true_iff in H
       | H : ?b = _ |- context [?b] => rewrite H
       end; simpl; try done.
Qed.




(** C2.  For every function whose signature is one of the legal shapes,
    [wrap] succeeds, and the binding it returns matches the shape: it holds
    the function; [needsContext] is set exactly when the first parameter
    is a context; [inType] is the data parameter and [outType] the data
    return, when there is one; [hasError] is set exactly when the last
    return value is an error. *)
Theorem wrap_binds_legal_shapes (d : Dyn) :
  legalShape (dynType d) = true ->
  exists h, wrap (Some d) = Ok h /\
    f h = Some d /\
    (needsContext h = true <->
       exists c rest, reflect.ins (dynType d) = c :: rest /\ isCtx c = true) /\
    inType h = dataParam (reflect.ins (dynType d)) /\
    outType h = dataReturn (reflect.outs (dynType d)) /\
    (hasError h = true <->
       exists e, last (reflect.outs (dynType d)) = Some e /\ isErr e = true).
Proof.
  intros Hl. apply legal_no_violation in Hl.
  exists (bindingOf (Some d) (dynType d)).
  split; [by rewrite wrap_characterised, Hl|].
  unfold bindingOf; simpl. repeat split; try done.
  - destruct (reflect.ins (dynType d)) as [|c rest]; [done|]. eauto.
  - intros (c & rest & -> & Hc). done.
  - destruct (last (reflect.outs (dynType d))) as [e|]; [eauto|done].
  - intros (e & -> & He). done.
Qed.

End WrapFacts.

(** ** The endpoint and the invoker *)

Section EndpointFacts.
Context `{GoEnv}.

Lemma ServeHTTP_other_method (req : Request) (s : Machine) :
  String.eqb (Method req) http.MethodPost = false ->
  ServeHTTP req s =
  (Some tt, mkMachine (recv s)
              (http.WriteHeader http.StatusMethodNotAllowed (rw s)) (calls s)).
Proof. intros Hm. unfold ServeHTTP. by rewrite Hm. Qed.

Lemma ServeHTTP_structured (req : Request) (s : Machine) :
  String.eqb (Method req) http.MethodPost = true ->
  String.prefix "application/cloudevents" (http.Get (Header req) "Content-Type") = true ->
  ServeHTTP req s =
  (Some tt, mkMachine (recv s)
     (http.Write (bytes "structured output not supported yet")
        (http.WriteHeader http.StatusExpectationFailed
           (http.SetHeader "Content-Type" "text/plain" (rw s))))
     (calls s)).
Proof. intros Hm Hp. unfold ServeHTTP. by rewrite Hm, Hp. Qed.

Lemma ServeHTTP_undecoded (req : Request) (s : Machine) (err : error) :
  String.eqb (Method req) http.MethodPost = true ->
  String.prefix "application/cloudevents" (http.Get (Header req) "Content-Type") = false ->
  convertBinary req = Err err ->
  ServeHTTP req s =
  (Some tt, mkMachine (recv s)
     (http.Write (bytes (Error err))
        (http.WriteHeader http.StatusExpectationFailed
           (http.SetHeader "Content-Type" "text/plain" (rw s))))
     (calls s)).
Proof. intros Hm Hp Hc. unfold ServeHTTP. by rewrite Hm, Hp, Hc. Qed.

Lemma ServeHTTP_decoded (req : Request) (s : Machine) in_ ctx :
  String.eqb (Method req) http.MethodPost = true ->
  String.prefix "application/cloudevents" (http.Get (Header req) "Content-Type") = false ->
  convertBinary req = Ok (in_, ctx) ->
  ServeHTTP req s =
  match Invoke ctx in_ s with
  | (Some (out, Some err), s') =>
      (Some tt, mkMachine (recv s')
         (http.Write (bytes (Error err))
            (http.WriteHeader http.StatusInternalServerError (rw s')))
         (calls s'))
  | (Some (out, None), s') =>
      (Some tt, mkMachine (recv s')
         (http.Write out (http.WriteHeader http.StatusOK (rw s'))) (calls s'))
  | (None, s') => (None, s')
  end.
Proof.
  intros Hm Hp Hc. unfold ServeHTTP. rewrite Hm, Hp, Hc. run.
  destruct (Invoke ctx in_ s) as [[[out [err|]]|] s']; done.
Qed.

Lemma convertBinary_no_panic (req : Request) : convertBinary req <> Panic.
Proof. unfold convertBinary, ReadAll. simpl. unfold mbind, Result_bind. cases. Qed.

Lemma Invoke_run ctx in_ (s : Machine) :
  Invoke ctx in_ s =
  match Invoke_arguments (recv s) ctx in_ with
  | inr err => (Some ([], Some err), s)
  | inl args =>
      match f (recv s) with
      | Some d =>
          if callable d args
          then (Invoke_results (recv s) (dynCall d args),
                mkMachine (recv s) (rw s) (calls s ++ [args]))
          else (None, s)
      | None => (None, s)
      end
  end.
Proof. unfold Invoke. run. cases. Qed.

Lemma invoked_once (fh : functionHandler) (req : Request) (args : list Value) :
  invocations fh req = [args] ->
  exists in_ ctx d,
    convertBinary req = Ok (in_, ctx) /\
    Invoke_arguments fh ctx in_ = inl args /\
    f fh = Some d /\
    exchange fh req =
    match Invoke_results fh (dynCall d args) with
    | Some (out, Some err) =>
        Some (http.finish (http.Write (bytes (Error err))
                (http.WriteHeader http.StatusInternalServerError http.newResponseWriter)))
    | Some (out, None) =>
        Some (http.finish (http.Write out
                (http.WriteHeader http.StatusOK http.newResponseWriter)))
    | None => None
    end.
Proof.
  unfold invocations, exchange.
  destruct (String.eqb (Method req) http.MethodPost) eqn:Hm;
    [|by rewrite ServeHTTP_other_method].
  destruct (String.prefix "application/cloudevents"
              (http.Get (Header req) "Content-Type")) eqn:Hp;
    [by rewrite ServeHTTP_structured|].
  destruct (convertBinary req) as [[in_ ctx]|err|] eqn:Hc;
    [|by rewrite (ServeHTTP_undecoded _ _ err)|by destruct (convertBinary_no_panic req)].
  rewrite (ServeHTTP_decoded _ _ in_ ctx), Invoke_run by done. simpl.
  intros Hi. exists in_, ctx.
  destruct (Invoke_arguments fh ctx in_) as [args'|err]; [|done].
  destruct (f fh) as [d|]; [|done]. exists d.
  destruct (callable d args'); [|done].
  destruct (Invoke_results fh (dynCall d args')) as [[out [err|]]|] eqn:Hr;
    simpl in Hi; simplify_eq; by rewrite Hr.
Qed.



(** When the last result of the call is nil, [Invoke] returns what the
    results before it gave, with a nil error whatever [err] held: with a
    struct output type that cannot be encoded, the encoding error is lost;
    when the last result is an error, that error is returned. *)
Lemma results_after_failed_encoding (fh : functionHandler) (u : reflect.rtype)
    (response : list Value) (v w : Value) (e : error) :
  hasError fh = true ->
  outType fh = Some u ->
  reflect.isByteSlice u = false ->
  reflect.isStruct u = true ->
  response !! 0 = Some v ->
  json_Marshal v = inr e ->
  last response = Some w ->
  Invoke_results fh response = Some ([], fst (assertError w)).
Proof.
  unfold Invoke_results. intros -> -> -> -> Hv He Hw.
  rewrite lookup_last, Hw. simpl. rewrite Hv. simpl. by rewrite He.
Qed.

(** C3 (as amended).  A POST request whose [Content-Type] has the prefix
    [application/cloudevents] is answered 417, with content type
    [text/plain] and the body [structured output not supported yet],
    whatever its body is, and the user function is not called. *)
Theorem structured_mode_refused (fh : functionHandler) (req : Request) :
  Method req = http.MethodPost ->
  String.prefix "application/cloudevents"
    (http.Get (Header req) "Content-Type") = true ->
  exchange fh req =
    Some (http.mkResponse http.StatusExpectationFailed
            (http.Set_ ∅ "Content-Type" "text/plain")
            (bytes "structured output not supported yet")) /\
  invocations fh req = [].
Proof.
  intros Hm Hp. apply String.eqb_eq in Hm.
  unfold exchange, invocations. by rewrite ServeHTTP_structured.
Qed.


(** C10 (the behaviour of the code).  For a binding with a struct output
    type and [hasError] set, a failure to encode the first return value as
    JSON does not end [Invoke]: the last return value is inspected next.  If
    it is a non-nil error, that error is the error of [Invoke].  If it is
    nil, [Invoke] returns a nil error and no bytes: the encoding failure is
    not reported, and the endpoint answers 200 with an empty body. *)
Theorem encoding_failure_not_reported (fh : functionHandler) (u : reflect.rtype)
    (req : Request) (d : Dyn) (args : list Value) (v w : Value) (e : error) :
  hasError fh = true ->
  outType fh = Some u ->
  reflect.isByteSlice u = false ->
  reflect.isStruct u = true ->
  f fh = Some d ->
  invocations fh req = [args] ->
  dynCall d args !! 0 = Some v ->
  json_Marshal v = inr e ->
  last (dynCall d args) = Some w ->
  Invoke_results fh (dynCall d args) = Some ([], fst (assertError w)) /\
  (forall e', w = VError e' ->
     exchange fh req =
     Some (http.mkResponse http.StatusInternalServerError ∅ (bytes (Error e')))) /\
  (w = VNil ->
     exchange fh req = Some (http.mkResponse http.StatusOK ∅ [])).
Proof.
  intros He Hout Hb Hs Hf Hinv Hv Hm Hw.
  pose proof (results_after_failed_encoding fh u _ v w e He Hout Hb Hs Hv Hm Hw) as Hr.
  destruct (invoked_once _ _ _ Hinv) as (in_ & ctx & d' & _ & _ & Hf' & Hx).
  assert (d' = d) as -> by congruence.
  rewrite Hr in Hx. split; [done|]. split.
  - intros e' ->. by rewrite Hx.
  - intros ->. by rewrite Hx.
Qed.

End EndpointFacts.

(** ** The protocol decoder and the context carrier *)

Section DecoderFacts.
Context `{GoEnv}.

Lemma Get_absent (h : http.Header) (key : string) :
  h !! http.CanonicalMIMEHeaderKey key = None -> http.Get h key = "".
Proof. unfold http.Get. by intros ->. Qed.

Lemma Get_first (h : http.Header) (key v : string) (rest : list string) :
  h !! http.CanonicalMIMEHeaderKey key = Some (v :: rest) -> http.Get h key = v.
Proof. unfold http.Get. by intros ->. Qed.

Lemma convertBinary_bad_time (req : Request) (e : time.ParseError) :
  http.Get (Header req) "CE-EventTime" <> "" ->
  time_Parse time.RFC3339 (http.Get (Header req) "CE-EventTime") = inr e ->
  convertBinary req = Err (timeParseError e).
Proof.
  intros Hts Hp. apply String.eqb_neq in Hts.
  unfold convertBinary. by rewrite Hts, Hp.
Qed.

Lemma convertBinary_decoded (req : Request) (t : time.Time) :
  (http.Get (Header req) "CE-EventTime" = "" /\ t = time.zero) \/
  (http.Get (Header req) "CE-EventTime" <> "" /\
   time_Parse time.RFC3339 (http.Get (Header req) "CE-EventTime") = inl t) ->
  convertBinary req =
  match http.failure (Body req) with
  | Some err => Err err
  | None =>
      Ok (concat (http.chunks (Body req)),
          context.WithValue (Context req) contextKey
            (context.cloudEvent (binaryContext (Header req) t)))
  end.
Proof.
  unfold convertBinary, ReadAll.
  intros [[Hts ->]|[Hts Hp]].
  - rewrite Hts. simpl. by destruct (http.failure (Body req)).
  - apply String.eqb_neq in Hts. rewrite Hts, Hp. simpl.
    by destruct (http.failure (Body req)).
Qed.

Lemma parse_error_prefix (e : time.ParseError) :
  String.prefix "parsing time " (ParseError_Error e) = true.
Proof.
  unfold ParseError_Error.
  destruct (String.eqb (time.Message e) ""); apply prefix_append.
Qed.

Lemma CloudEvent_attached_here (parent : context.Context) (cex : CloudEventContext) :
  CloudEvent (context.WithValue parent contextKey (context.cloudEvent cex)) = (cex, true).
Proof. reflexivity. Qed.

Lemma CloudEvent_unattached (ctx : context.Context) :
  attached ctx = false -> CloudEvent ctx = (zeroCloudEventContext, false).
Proof.
  unfold CloudEvent.
  induction ctx as [|parent IH k v|parent IH]; simpl; [done| |done].
  intros Ha. apply orb_false_iff in Ha as [Hk Hp].
  destruct (decide (k = contextKey)) as [->|Hne]; [|by apply IH].
  rewrite bool_decide_eq_true_2 in Hk by done. simpl in Hk.
  by destruct v.
Qed.

(** C5.  A binary-mode POST request whose [CE-EventTime] header is not
    empty and does not parse as RFC 3339 fails to decode as a whole: the
    answer is 417, its body is the text of the parse error, which starts
    with [parsing time], and the user function is not called.  A request
    whose [CE-EventTime] header is absent or empty never fails on the
    timestamp: decoding fails only if reading the body does, and otherwise
    yields the body and a context whose timestamp is the zero value. *)
Theorem bad_event_time_answers_417 (fh : functionHandler) (req : Request) :
  Method req = http.MethodPost ->
  String.prefix "application/cloudevents"
    (http.Get (Header req) "Content-Type") = false ->
  (forall e,
     http.Get (Header req) "CE-EventTime" <> "" ->
     time_Parse time.RFC3339 (http.Get (Header req) "CE-EventTime") = inr e ->
     convertBinary req = Err (timeParseError e) /\
     exchange fh req =
       Some (http.mkResponse http.StatusExpectationFailed
               (http.Set_ ∅ "Content-Type" "text/plain")
               (bytes (ParseError_Error e))) /\
     String.prefix "parsing time " (ParseError_Error e) = true /\
     invocations fh req = []) /\
  (Header req !! "Ce-Eventtime" = None ->
     http.Get (Header req) "CE-EventTime" = "") /\
  (http.Get (Header req) "CE-EventTime" = "" ->
     convertBinary req =
     match http.failure (Body req) with
     | Some err => Err err
     | None =>
         Ok (concat (http.chunks (Body req)),
             context.WithValue (Context req) contextKey
               (context.cloudEvent (binaryContext (Header req) time.zero)))
     end).
Proof.
  intros Hm Hp. apply String.eqb_eq in Hm. repeat split.
  - by apply convertBinary_bad_time.
  - unfold exchange.
    by rewrite (ServeHTTP_undecoded _ _ (timeParseError e))
      by auto using convertBinary_bad_time.
  - apply parse_error_prefix.
  - unfold invocations.
    by rewrite (ServeHTTP_undecoded _ _ (timeParseError e))
      by auto using convertBinary_bad_time.
  - intros Hn. apply (Get_absent _ "CE-EventTime"). exact Hn.
  - intros Hts. apply convertBinary_decoded. by left.
Qed.

(** [convertBinary], outcome by outcome. *)
Lemma convertBinary_cases (req : Request) :
  convertBinary req =
  match
    (if String.eqb (http.Get (Header req) "CE-EventTime") ""
     then inl time.zero
     else time_Parse time.RFC3339 (http.Get (Header req) "CE-EventTime"))
  with
  | inr e => Err (timeParseError e)
  | inl t =>
      match http.failure (Body req) with
      | Some err => Err err
      | None =>
          Ok (concat (http.chunks (Body req)),
              context.WithValue (Context req) contextKey
                (context.cloudEvent (binaryContext (Header req) t)))
      end
  end.
Proof.
  unfold convertBinary, ReadAll.
  destruct (String.eqb (http.Get (Header req) "CE-EventTime") ""); simpl.
  - by destruct (http.failure (Body req)).
  - destruct (time_Parse _ _); simpl; [|done].
    by destruct (http.failure (Body req)).
Qed.

(** C6.  For every binary-mode request: when the decoder returns a
    payload, it is the whole body, unchanged, and the [CloudEventContext]
    attached to the context holds each of the six metadata headers and
    [Content-Type] as [Get] reads them, which is the first value of the
    header as it was sent, and the empty string for a header that is absent.
    No header other than a timestamp that does not parse makes the decoder
    fail: its only errors are that parse error and the error of reading the
    body, and it succeeds whenever neither occurs. *)
Theorem convertBinary_copies_headers (req : Request) :
  (forall in_ ctx,
     convertBinary req = Ok (in_, ctx) ->
     in_ = concat (http.chunks (Body req)) /\
     exists cex,
       CloudEvent ctx = (cex, true) /\
       EventType cex = http.Get (Header req) "CE-EventType" /\
       EventTypeVersion cex = http.Get (Header req) "CE-EventTypeVersion" /\
       CloudEventsVersion cex = http.Get (Header req) "CE-CloudEventsVersion" /\
       Source cex = http.Get (Header req) "CE-Source" /\
       EventID cex = http.Get (Header req) "CE-EventID" /\
       SchemaURL cex = http.Get (Header req) "CE-SchemaURL" /\
       ContentType cex = http.Get (Header req) "Content-Type") /\
  (forall err,
     convertBinary req = Err err ->
     (http.Get (Header req) "CE-EventTime" <> "" /\
      exists e,
        time_Parse time.RFC3339 (http.Get (Header req) "CE-EventTime") = inr e /\
        err = timeParseError e) \/
     http.failure (Body req) = Some err) /\
  (forall t,
     (http.Get (Header req) "CE-EventTime" = "" /\ t = time.zero) \/
     (http.Get (Header req) "CE-EventTime" <> "" /\
      time_Parse time.RFC3339 (http.Get (Header req) "CE-EventTime") = inl t) ->
     http.failure (Body req) = None ->
     convertBinary req =
       Ok (concat (http.chunks (Body req)),
           context.WithValue (Context req) contextKey
             (context.cloudEvent (binaryContext (Header req) t)))) /\
  (forall key v rest,
     Header req !! http.CanonicalMIMEHeaderKey key = Some (v :: rest) ->
     http.Get (Header req) key = v) /\
  (forall key,
     Header req !! http.CanonicalMIMEHeaderKey key = None ->
     http.Get (Header req) key = "").
Proof.
  split; [|split; [|split; [|split; [apply Get_first | apply Get_absent]]]].
  - intros in_ ctx. rewrite convertBinary_cases.
    destruct (if String.eqb _ _ then _ else _) as [t|e]; [|done].
    destruct (http.failure (Body req)); [done|].
    intros [= <- <-]. split; [done|].
    eexists. rewrite CloudEvent_attached_here. by repeat split.
  - intros err. rewrite convertBinary_cases.
    destruct (String.eqb (http.Get (Header req) "CE-EventTime") "") eqn:Hts.
    + destruct (http.failure (Body req)); [|done]. intros [= <-]. by right.
    + apply String.eqb_neq in Hts.
      destruct (time_Parse _ _) as [t|e] eqn:Hp.
      * destruct (http.failure (Body req)); [|done]. intros [= <-]. by right.
      * intros [= <-]. left. eauto.
  - intros t Ht Hb. by rewrite (convertBinary_decoded req t Ht), Hb.
Qed.

(** C7.  Attaching a [CloudEventContext] to any context under the package's
    key and reading it back with [CloudEvent] returns that value, found; so
    does reading the context [convertBinary] returns.  On a context to which
    no [CloudEventContext] is attached, [CloudEvent] reports not found. *)
Theorem CloudEvent_round_trip :
  (forall parent cex,
     CloudEvent (context.WithValue parent contextKey (context.cloudEvent cex))
     = (cex, true)) /\
  (forall req in_ ctx,
     convertBinary req = Ok (in_, ctx) ->
     exists cex,
       ctx = context.WithValue (Context req) contextKey (context.cloudEvent cex) /\
       CloudEvent ctx = (cex, true)) /\
  (forall ctx,
     attached ctx = false -> CloudEvent ctx = (zeroCloudEventContext, false)).
Proof.
  split; [apply CloudEvent_attached_here|]. split.
  - intros req in_ ctx. rewrite convertBinary_cases.
    destruct (if String.eqb _ _ then _ else _) as [t|e]; [|done].
    destruct (http.failure (Body req)); [done|].
    intros [= <- <-]. eauto using CloudEvent_attached_here.
  - apply CloudEvent_unattached.
Qed.

End DecoderFacts.

(** ** The binding is read-only *)

Section ReadOnly.
Context `{GoEnv}.

Lemma Invoke_keeps_receiver ctx in_ (s : Machine) :
  recv (snd (Invoke ctx in_ s)) = recv s.
Proof. rewrite Invoke_run. cases. Qed.

Lemma ServeHTTP_keeps_receiver (req : Request) (s : Machine) :
  recv (snd (ServeHTTP req s)) = recv s.
Proof.
  destruct (String.eqb (Method req) http.MethodPost) eqn:Hm;
    [|by rewrite ServeHTTP_other_method].
  destruct (String.prefix "application/cloudevents"
              (http.Get (Header req) "Content-Type")) eqn:Hp;
    [by rewrite ServeHTTP_structured|].
  destruct (convertBinary req) as [[in_ ctx]|err|] eqn:Hc;
    [|by rewrite (ServeHTTP_undecoded _ _ err)|by destruct (convertBinary_no_panic req)].
  rewrite (ServeHTTP_decoded _ _ in_ ctx) by done.
  pose proof (Invoke_keeps_receiver ctx in_ s) as Hk.
  destruct (Invoke ctx in_ s) as [[[out [err|]]|] s']; done.
Qed.

Lemma serve_keeps_handler (srv : Server) (req : Request) :
  serve srv req =
  mkServer (handler srv) (answered srv ++ [exchange (handler srv) req]).
Proof.
  unfold serve, exchange.
  pose proof (ServeHTTP_keeps_receiver req (start (handler srv))) as Hk.
  destruct (ServeHTTP req (start (handler srv))) as [r s]. simpl in Hk.
  by rewrite Hk.
Qed.

Lemma serveAll_keeps_handler (reqs : list Request) (srv : Server) :
  serveAll reqs srv =
  mkServer (handler srv) (answered srv ++ map (exchange (handler srv)) reqs).
Proof.
  unfold serveAll. revert srv.
  induction reqs as [|req reqs IH]; intros srv; simpl.
  - rewrite app_nil_r. by destruct srv.
  - rewrite IH, serve_keeps_handler. simpl. by rewrite <- app_assoc.
Qed.

(** C9.  No operation writes the binding.  [Invoke] and [ServeHTTP] leave
    their receiver as they found it, whatever the request and whether or
    not they panic; so after any sequence of requests the server holds the
    handler [wrap] returned, and every request is answered as that handler
    answers it. *)
Theorem binding_never_written (h : functionHandler) (reqs : list Request) :
  (forall ctx in_ s, recv (snd (Invoke ctx in_ s)) = recv s) /\
  (forall req s, recv (snd (ServeHTTP req s)) = recv s) /\
  handler (serveAll reqs (mkServer h [])) = h /\
  answered (serveAll reqs (mkServer h [])) = map (exchange h) reqs.
Proof.
  split; [apply Invoke_keeps_receiver|]. split; [apply ServeHTTP_keeps_receiver|].
  by rewrite serveAll_keeps_handler.
Qed.
End ReadOnly.

(** ** The accessors of the draft *)

Section DraftFacts.
Context `{GoEnv}.

Lemma draft_Invoke_run ctx in_ (s : Machine) :
  Draft.Invoke ctx in_ s =
  match Draft.Invoke_arguments (recv s) ctx in_ with
  | None => (None, s)
  | Some (inr err) => (Some ([], Some err), s)
  | Some (inl args) =>
      match f (recv s) with
      | Some d =>
          if callable d args
          then (Draft.Invoke_results (recv s) (dynCall d args),
                mkMachine (recv s) (rw s) (calls s ++ [args]))
          else (None, s)
      | None => (None, s)
      end
  end.
Proof. unfold Draft.Invoke. run. cases. Qed.

Lemma draft_invoked (fh : functionHandler) (req : Request) (args : list Value) :
  args ∈ Draft.invocations fh req ->
  exists in_,
    Draft.Invoke_arguments fh
      (context.WithValue (Context req) Draft.headerKey
         (context.headers (Header req))) in_ = Some (inl args).
Proof.
  unfold Draft.invocations, Draft.ServeHTTP, ReadAll.
  destruct (String.eqb (Method req) http.MethodPost); simpl;
    [|by intros ?%elem_of_nil].
  destruct (http.failure (Body req)); simpl; [by intros ?%elem_of_nil|].
  run. rewrite draft_Invoke_run. simpl.
  intros Hin. eexists.
  destruct (Draft.Invoke_arguments _ _ _) as [[args'|err]|] eqn:Ha; simpl in Hin;
    [|by apply elem_of_nil in Hin..].
  revert Hin. unfold start. cases; intros Hin;
    try (by apply elem_of_nil in Hin);
    apply list_elem_of_singleton in Hin; by subst.
Qed.

Lemma draft_arguments_context (fh : functionHandler) ctx in_ (args : list Value) :
  needsContext fh = true ->
  Draft.Invoke_arguments fh ctx in_ = Some (inl args) ->
  exists rest, args = VContext ctx :: rest.
Proof.
  unfold Draft.Invoke_arguments. intros ->. simpl. cases; intros; simplify_eq; eauto.
Qed.

Lemma draft_getHeader (parent : context.Context) (h : http.Header) (key : string) :
  Draft.getHeader
    (context.WithValue parent Draft.headerKey (context.headers h)) key
  = http.Get h key.
Proof. reflexivity. Qed.

(** C8.  In the draft, for every request carrying [CE-EventID: abc-123] and
    [CE-EventTime: 2020-01-01T00:00:00Z], and a function taking the
    context: in every call of the user function the first argument is a
    context on which [EventId] returns [abc-123] and [EventTime] returns
    the instant 2020-01-01T00:00:00Z, given that [time.Parse] reads that
    text as that instant.  [EventTime] returns the error of [time.Parse]
    when the header's text does not parse, and when the header is absent,
    [time.Parse] then being run on the empty string. *)
Theorem draft_accessors_read_headers :
  (forall (fh : functionHandler) (req : Request),
     http.Get (Header req) "CE-EventID" = "abc-123" ->
     http.Get (Header req) "CE-EventTime" = "2020-01-01T00:00:00Z" ->
     time_Parse time.RFC3339 "2020-01-01T00:00:00Z"
       = inl (time.Date 2020 1 1 0 0 0 0 0) ->
     needsContext fh = true ->
     forall args, args ∈ Draft.invocations fh req ->
       exists ctx rest,
         args = VContext ctx :: rest /\
         Draft.EventId ctx = "abc-123" /\
         Draft.EventTime ctx = inl (time.Date 2020 1 1 0 0 0 0 0)) /\
  (forall (req : Request) (e : time.ParseError),
     time_Parse time.RFC3339 (http.Get (Header req) "CE-EventTime") = inr e ->
     Draft.EventTime
       (context.WithValue (Context req) Draft.headerKey
          (context.headers (Header req))) = inr e) /\
  (forall (req : Request) (e : time.ParseError),
     Header req !! "Ce-Eventtime" = None ->
     time_Parse time.RFC3339 "" = inr e ->
     Draft.EventTime
       (context.WithValue (Context req) Draft.headerKey
          (context.headers (Header req))) = inr e).
Proof.
  split; [|split].
  - intros fh req Hid Hts Hp Hn args Hin.
    destruct (draft_invoked _ _ _ Hin) as [in_ Ha].
    destruct (draft_arguments_context _ _ _ _ Hn Ha) as [rest ->].
    eexists _, _. split; [reflexivity|].
    unfold Draft.EventId, Draft.EventTime. rewrite !draft_getHeader.
    change (http.Get (Header req) "Ce-Eventid") with (http.Get (Header req) "CE-EventID").
    change (http.Get (Header req) "Ce-Eventtime") with (http.Get (Header req) "CE-EventTime").
    by rewrite Hid, Hts.
  - intros req e Hp. unfold Draft.EventTime. rewrite draft_getHeader. exact Hp.
  - intros req e Hn Hp. unfold Draft.EventTime. rewrite draft_getHeader.
    by rewrite (Get_absent _ "Ce-Eventtime") by exact Hn.
Qed.
End DraftFacts.

(** ** The theorems at concrete inputs *)

Section Examples.
#[local] Existing Instance Demo.env.



(** C2, at [func(context.Context, main.MyData) (main.MyData, error)]. *)
Lemma wrap_binds_legal_shapes_witness :
  legalShape (dynType Demo.echo) = true /\
  exists h, wrap (Some Demo.echo) = Ok h /\
    f h = Some Demo.echo /\
    (needsContext h = true <->
       exists c rest, reflect.ins (dynType Demo.echo) = c :: rest /\ isCtx c = true) /\
    inType h = dataParam (reflect.ins (dynType Demo.echo)) /\
    outType h = dataReturn (reflect.outs (dynType Demo.echo)) /\
    (hasError h = true <->
       exists e, last (reflect.outs (dynType Demo.echo)) = Some e /\ isErr e = true).
Proof.
  split; [reflexivity|]. apply (wrap_binds_legal_shapes Demo.echo). reflexivity.
Defined.

(** C3, counterexample.  The body of the answer to a structured-mode
    request is not the message of the specification. *)
Lemma structured_body_is_another_message :
  Method (Demo.post Demo.structuredHeaders "{}") = http.MethodPost /\
  String.prefix "application/cloudevents"
    (http.Get (Header (Demo.post Demo.structuredHeaders "{}")) "Content-Type") = true /\
  exchange (Demo.handlerOf Demo.echo) (Demo.post Demo.structuredHeaders "{}") =
    Some (http.mkResponse http.StatusExpectationFailed
            (http.Set_ ∅ "Content-Type" "text/plain")
            (bytes "structured output not supported yet")) /\
  bytes "structured output not supported yet" <> bytes specStructuredMessage.
Proof. split; [|split; [|split]]; try reflexivity. discriminate. Qed.

(** C3, at a request with [Content-Type: application/cloudevents+json]. *)
Lemma structured_mode_refused_witness :
  Method (Demo.post Demo.structuredHeaders "{}") = http.MethodPost /\
  String.prefix "application/cloudevents"
    (http.Get (Header (Demo.post Demo.structuredHeaders "{}")) "Content-Type") = true /\
  exchange (Demo.handlerOf Demo.echo) (Demo.post Demo.structuredHeaders "{}") =
    Some (http.mkResponse http.StatusExpectationFailed
            (http.Set_ ∅ "Content-Type" "text/plain")
            (bytes "structured output not supported yet")) /\
  invocations (Demo.handlerOf Demo.echo) (Demo.post Demo.structuredHeaders "{}") = [].
Proof.
  split; [reflexivity|]. split; [reflexivity|].
  apply (structured_mode_refused (Demo.handlerOf Demo.echo)); reflexivity.
Defined.



(** C5, at a request with [CE-EventTime: yesterday] and at a request with
    no [CE-EventTime]. *)
Lemma bad_event_time_answers_417_witness :
  (http.Get Demo.badTimeHeaders "CE-EventTime" <> "" /\
   time_Parse time.RFC3339 (http.Get Demo.badTimeHeaders "CE-EventTime") =
     inr (time.mkParseError time.RFC3339 "yesterday" "2006" "yesterday" "") /\
   exchange (Demo.handlerOf Demo.echo) (Demo.post Demo.badTimeHeaders "{}") =
     Some (http.mkResponse http.StatusExpectationFailed
             (http.Set_ ∅ "Content-Type" "text/plain")
             (bytes (ParseError_Error
                (time.mkParseError time.RFC3339 "yesterday" "2006" "yesterday" "")))) /\
   invocations (Demo.handlerOf Demo.echo) (Demo.post Demo.badTimeHeaders "{}") = []) /\
  ((∅ : http.Header) !! "Ce-Eventtime" = None /\
   convertBinary (Demo.post ∅ "{}") =
     Ok (bytes "{}",
         context.WithValue context.Background contextKey
           (context.cloudEvent (binaryContext ∅ time.zero)))).
Proof.
  split.
  - split; [differs|]. split; [reflexivity|].
    destruct (bad_event_time_answers_417 (Demo.handlerOf Demo.echo)
                (Demo.post Demo.badTimeHeaders "{}"))
      as (Hbad & _ & _); [reflexivity..|].
    destruct (Hbad (time.mkParseError time.RFC3339 "yesterday" "2006" "yesterday" ""))
      as (_ & Hx & _ & Hi); [differs|reflexivity|].
    by split.
  - split; [reflexivity|].
    destruct (bad_event_time_answers_417 (Demo.handlerOf Demo.echo)
                (Demo.post ∅ "{}"))
      as (_ & Habsent & Hempty); [reflexivity..|].
    rewrite Hempty; [reflexivity|]. apply Habsent. reflexivity.
Defined.

(** C6, at the request of [Demo.eventHeaders]. *)
Lemma convertBinary_copies_headers_witness :
  convertBinary (Demo.post Demo.eventHeaders "{}") = Ok (bytes "{}", Demo.eventContext) /\
  bytes "{}" = concat (http.chunks (Body (Demo.post Demo.eventHeaders "{}"))) /\
  exists cex,
    CloudEvent Demo.eventContext = (cex, true) /\
    EventType cex = "" /\
    EventID cex = "abc-123" /\
    ContentType cex = "application/json".
Proof.
  split; [reflexivity|].
  destruct (proj1 (convertBinary_copies_headers (Demo.post Demo.eventHeaders "{}"))
              (bytes "{}") Demo.eventContext)
    as (Hin & cex & Hce & Hty & _ & _ & _ & Hid & _ & Hct); [reflexivity|].
  split; [exact Hin|]. exists cex. by repeat split.
Defined.

(** C7, at the context built for [Demo.eventHeaders] and at the background
    context. *)
Lemma CloudEvent_round_trip_witness :
  convertBinary (Demo.post Demo.eventHeaders "{}") = Ok (bytes "{}", Demo.eventContext) /\
  CloudEvent Demo.eventContext =
    (binaryContext Demo.eventHeaders (time.Date 2020 1 1 0 0 0 0 0), true) /\
  attached context.Background = false /\
  CloudEvent context.Background = (zeroCloudEventContext, false).
Proof.
  split; [reflexivity|]. split; [|split; [reflexivity|]].
  - apply (proj1 CloudEvent_round_trip).
  - apply (proj2 (proj2 CloudEvent_round_trip)). reflexivity.
Defined.

(** C8, at the request of [Demo.eventHeaders] and a function of type
    [func(context.Context) error]. *)
Lemma draft_accessors_read_headers_witness :
  (http.Get Demo.eventHeaders "CE-EventID" = "abc-123" /\
   http.Get Demo.eventHeaders "CE-EventTime" = "2020-01-01T00:00:00Z" /\
   time_Parse time.RFC3339 "2020-01-01T00:00:00Z" = inl (time.Date 2020 1 1 0 0 0 0 0) /\
   needsContext (Demo.handlerOf Demo.onlyContext) = true /\
   Draft.invocations (Demo.handlerOf Demo.onlyContext)
     (Demo.post Demo.eventHeaders "{}") = [[VContext Demo.draftContext]] /\
   exists ctx rest,
     ([VContext Demo.draftContext] : list Value) = VContext ctx :: rest /\
     Draft.EventId ctx = "abc-123" /\
     Draft.EventTime ctx = inl (time.Date 2020 1 1 0 0 0 0 0)) /\
  (time_Parse time.RFC3339 (http.Get Demo.badTimeHeaders "CE-EventTime") =
     inr (time.mkParseError time.RFC3339 "yesterday" "2006" "yesterday" "") /\
   Draft.EventTime
     (context.WithValue context.Background Draft.headerKey
        (context.headers Demo.badTimeHeaders)) =
     inr (time.mkParseError time.RFC3339 "yesterday" "2006" "yesterday" "")) /\
  (time_Parse time.RFC3339 "" = inr (time.mkParseError time.RFC3339 "" "2006" "" "") /\
   Draft.EventTime
     (context.WithValue context.Background Draft.headerKey (context.headers ∅)) =
     inr (time.mkParseError time.RFC3339 "" "2006" "" "")).
Proof.
  destruct draft_accessors_read_headers as (Hgood & Hbad & Habsent).
  split; [|split].
  - do 5 (split; [reflexivity|]).
    apply (Hgood (Demo.handlerOf Demo.onlyContext) (Demo.post Demo.eventHeaders "{}"));
      try reflexivity.
    change (Draft.invocations (Demo.handlerOf Demo.onlyContext)
              (Demo.post Demo.eventHeaders "{}"))
      with ([[VContext Demo.draftContext]] : list (list Value)).
    apply list_elem_of_here.
  - split; [reflexivity|].
    apply (Hbad (Demo.post Demo.badTimeHeaders "{}")). reflexivity.
  - split; [reflexivity|].
    apply (Habsent (Demo.post ∅ "{}")); reflexivity.
Defined.

(** C10, at a function returning a value with no JSON encoding and a nil
    error: the answer is an empty 200. *)
Lemma encoding_failure_not_reported_witness :
  hasError (Demo.handlerOf Demo.unencodable) = true /\
  outType (Demo.handlerOf Demo.unencodable) = Some Demo.tMyData /\
  reflect.isStruct Demo.tMyData = true /\
  invocations (Demo.handlerOf Demo.unencodable) (Demo.post ∅ "") = [[]] /\
  dynCall Demo.unencodable [] = [VObj None; VNil] /\
  json_Marshal (VObj None) = inr (dynError "json: unsupported type: chan int") /\
  exchange (Demo.handlerOf Demo.unencodable) (Demo.post ∅ "") =
    Some (http.mkResponse http.StatusOK ∅ []).
Proof.
  do 6 (split; [reflexivity|]).
  apply (encoding_failure_not_reported (Demo.handlerOf Demo.unencodable)
           Demo.tMyData (Demo.post ∅ "") Demo.unencodable [] (VObj None) VNil
           (dynError "json: unsupported type: chan int"));
    reflexivity.
Defined.

End Examples.

(** * More properties of the code *)

(** ** The answers of the endpoint *)

Section AnswerFacts.
Context `{GoEnv}.

(** One request, outcome by outcome. *)
Lemma ServeHTTP_cases (fh : functionHandler) (req : Request) :
  ServeHTTP req (start fh) =
  if negb (String.eqb (Method req) http.MethodPost) then
    (Some tt, mkMachine fh
       (http.WriteHeader http.StatusMethodNotAllowed http.newResponseWriter) [])
  else
    match
      (if String.prefix "application/cloudevents"
            (http.Get (Header req) "Content-Type")
       then convertStructured req else convertBinary req)
    with
    | Panic => (None, start fh)
    | Err err =>
        (Some tt, mkMachine fh
           (http.Write (bytes (Error err))
              (http.WriteHeader http.StatusExpectationFailed
                 (http.SetHeader "Content-Type" "text/plain" http.newResponseWriter)))
           [])
    | Ok (in_, ctx) =>
        match Invoke_arguments fh ctx in_ with
        | inr err =>
            (Some tt, mkMachine fh
               (http.Write (bytes (Error err))
                  (http.WriteHeader http.StatusInternalServerError
                     http.newResponseWriter)) [])
        | inl args =>
            match f fh with
            | Some d =>
                if callable d args then
                  match Invoke_results fh (dynCall d args) with
                  | Some (out, Some err) =>
                      (Some tt, mkMachine fh
                         (http.Write (bytes (Error err))
                            (http.WriteHeader http.StatusInternalServerError
                               http.newResponseWriter)) [args])
                  | Some (out, None) =>
                      (Some tt, mkMachine fh
                         (http.Write out
                            (http.WriteHeader http.StatusOK http.newResponseWriter))
                         [args])
                  | None => (None, mkMachine fh http.newResponseWriter [args])
                  end
                else (None, start fh)
            | None => (None, start fh)
            end
        end
    end.
Proof.
  destruct (String.eqb (Method req) http.MethodPost) eqn:Hm; simpl;
    [|by rewrite ServeHTTP_other_method].
  destruct (String.prefix "application/cloudevents"
              (http.Get (Header req) "Content-Type")) eqn:Hp.
  { by rewrite ServeHTTP_structured. }
  destruct (convertBinary req) as [[in_ ctx]|err|] eqn:Hc;
    [|by rewrite (ServeHTTP_undecoded _ _ err)|by destruct (convertBinary_no_panic req)].
  rewrite (ServeHTTP_decoded _ _ in_ ctx), Invoke_run by done. simpl.
  destruct (Invoke_arguments fh ctx in_) as [args|err]; [|done].
  destruct (f fh) as [d|]; [|done].
  destruct (callable d args); [|done].
  by destruct (Invoke_results fh (dynCall d args)) as [[out [err|]]|].
Qed.

(** X1.  Every answer of the endpoint has one of four shapes, and the user
    function is called at most once per request.  A request with another
    method than POST is always answered, 405 with no body.  Any other
    answer is 417 with [Content-Type: text/plain] and the text of an error,
    the function not having been called; or 500 with the text of an error;
    or 200 with the output, after exactly one call.  No answer but 417
    carries a header of the handler's. *)
Theorem answers_have_four_shapes (fh : functionHandler) (req : Request) :
  (length (invocations fh req) <= 1)%nat /\
  (Method req <> http.MethodPost ->
   exchange fh req = Some (http.mkResponse http.StatusMethodNotAllowed ∅ [])) /\
  forall r, exchange fh req = Some r ->
    (Method req <> http.MethodPost /\ invocations fh req = [] /\
     r = http.mkResponse http.StatusMethodNotAllowed ∅ []) \/
    (Method req = http.MethodPost /\ invocations fh req = [] /\
     exists err,
       r = http.mkResponse http.StatusExpectationFailed
             (http.Set_ ∅ "Content-Type" "text/plain") (bytes (Error err))) \/
    (Method req = http.MethodPost /\
     exists err,
       r = http.mkResponse http.StatusInternalServerError ∅ (bytes (Error err))) \/
    (Method req = http.MethodPost /\
     exists args out,
       invocations fh req = [args] /\
       r = http.mkResponse http.StatusOK ∅ out).
Proof.
  unfold invocations, exchange. rewrite ServeHTTP_cases.
  destruct (String.eqb (Method req) http.MethodPost) eqn:Hm; simpl.
  - apply String.eqb_eq in Hm.
    destruct (if String.prefix _ _ then _ else _) as [[in_ ctx]|err|]; simpl.
    + destruct (Invoke_arguments fh ctx in_) as [args|err]; simpl.
      * destruct (f fh) as [d|]; simpl; [|split; [lia|done]].
        destruct (callable d args); simpl; [|split; [lia|done]].
        destruct (Invoke_results fh (dynCall d args)) as [[out [err|]]|]; simpl;
          (split; [lia|]); (split; [done|]); intros r [= <-]; eauto 10.
      * split; [lia|]. split; [done|]. intros r [= <-]. eauto 10.
    + split; [lia|]. split; [done|]. intros r [= <-]. right; left. eauto.
    + split; [lia|done].
  - apply String.eqb_neq in Hm. split; [lia|]. split; [done|].
    intros r [= <-]. by left.
Qed.

(** A call made for a request was made with arguments built from the
    decoded request. *)
Lemma invoked_with (fh : functionHandler) (req : Request) (args : list Value) :
  args ∈ invocations fh req ->
  exists ctx,
    convertBinary req = Ok (concat (http.chunks (Body req)), ctx) /\
    Invoke_arguments fh ctx (concat (http.chunks (Body req))) = inl args /\
    exists t,
      ctx = context.WithValue (Context req) contextKey
              (context.cloudEvent (binaryContext (Header req) t)) /\
      (if String.eqb (http.Get (Header req) "CE-EventTime") ""
       then inl time.zero
       else time_Parse time.RFC3339 (http.Get (Header req) "CE-EventTime"))
      = inl t.
Proof.
  unfold invocations. rewrite ServeHTTP_cases.
  destruct (String.eqb (Method req) http.MethodPost); simpl;
    [|by intros ?%elem_of_nil].
  destruct (String.prefix _ _); [by intros ?%elem_of_nil|].
  rewrite convertBinary_cases.
  destruct (if String.eqb _ _ then _ else _) as [t|e]; [|by intros ?%elem_of_nil].
  destruct (http.failure (Body req)); [by intros ?%elem_of_nil|].
  destruct (Invoke_arguments fh _ _) as [args'|err] eqn:Ha;
    [|by intros ?%elem_of_nil].
  destruct (f fh) as [d|]; [|by intros ?%elem_of_nil].
  destruct (callable d args'); [|by intros ?%elem_of_nil].
  intros Hin.
  assert (args = args') as ->.
  { destruct (Invoke_results fh (dynCall d args')) as [[out [err|]]|];
      simpl in Hin; by apply list_elem_of_singleton in Hin. }
  eauto 10.
Qed.

(** X2.  A request whose body cannot be read, its timestamp being absent or
    parsing, is answered 417 with the text of the read error; what was read
    before the failure is dropped and the user function is not called. *)
Theorem body_read_failure_answers_417 (fh : functionHandler) (req : Request)
    (err : error) :
  Method req = http.MethodPost ->
  String.prefix "application/cloudevents"
    (http.Get (Header req) "Content-Type") = false ->
  (http.Get (Header req) "CE-EventTime" = "" \/
   exists t, time_Parse time.RFC3339 (http.Get (Header req) "CE-EventTime") = inl t) ->
  http.failure (Body req) = Some err ->
  exchange fh req =
    Some (http.mkResponse http.StatusExpectationFailed
            (http.Set_ ∅ "Content-Type" "text/plain") (bytes (Error err))) /\
  invocations fh req = [].
Proof.
  intros Hm Hp Ht Hb. apply String.eqb_eq in Hm.
  unfold exchange, invocations. rewrite ServeHTTP_cases, Hm, Hp. simpl.
  rewrite convertBinary_cases, Hb.
  destruct Ht as [->|[t Ht]]; [done|].
  rewrite Ht. by destruct (String.eqb (http.Get (Header req) "CE-EventTime") "").
Qed.

(** X3.  When the input type is a struct and the payload does not decode
    as JSON, the answer is 500 with the text of the decoding error, and the
    user function is not called. *)
Theorem undecodable_payload_answers_500 (fh : functionHandler) (req : Request)
    (in_ : list byte) (ctx : context.Context) (t : reflect.rtype) (err : error) :
  Method req = http.MethodPost ->
  String.prefix "application/cloudevents"
    (http.Get (Header req) "Content-Type") = false ->
  convertBinary req = Ok (in_, ctx) ->
  inType fh = Some t ->
  reflect.isByteSlice t = false ->
  reflect.isStruct t = true ->
  json_Unmarshal in_ t = inr err ->
  exchange fh req =
    Some (http.mkResponse http.StatusInternalServerError ∅ (bytes (Error err))) /\
  invocations fh req = [].
Proof.
  intros Hm Hp Hc Hin Hb Hs Hu. apply String.eqb_eq in Hm.
  unfold exchange, invocations. rewrite ServeHTTP_cases, Hm, Hp, Hc. simpl.
  unfold Invoke_arguments. by rewrite Hin, Hb, Hs, Hu.
Qed.

(** X4.  For a binding with a struct output type and no error return, a
    failure to encode the first return value is answered 500 with the text
    of the encoding error. *)
Theorem encoding_failure_answers_500 (fh : functionHandler) (req : Request)
    (d : Dyn) (args : list Value) (u : reflect.rtype) (v : Value) (e : error) :
  hasError fh = false ->
  outType fh = Some u ->
  reflect.isByteSlice u = false ->
  reflect.isStruct u = true ->
  f fh = Some d ->
  invocations fh req = [args] ->
  dynCall d args !! 0 = Some v ->
  json_Marshal v = inr e ->
  exchange fh req =
    Some (http.mkResponse http.StatusInternalServerError ∅ (bytes (Error e))).
Proof.
  intros He Hout Hb Hs Hf Hinv Hv Hm.
  destruct (invoked_once _ _ _ Hinv) as (in_ & ctx & d' & _ & _ & Hf' & ->).
  assert (d' = d) as -> by congruence.
  unfold Invoke_results. rewrite Hout, Hb, Hs, He. simpl. rewrite Hv. simpl.
  by rewrite Hm.
Qed.

(** X5.  Bytes pass through unchanged.  With a byte-slice input type the
    last argument of the call is the whole request body; with a byte-slice
    output type, when the function reports no error, the answer is 200 and
    its body is exactly the bytes of the first return value. *)
Theorem bytes_pass_through (fh : functionHandler) (req : Request) :
  (forall t args,
     inType fh = Some t -> reflect.isByteSlice t = true ->
     args ∈ invocations fh req ->
     last args = Some (VBytes (concat (http.chunks (Body req))))) /\
  (forall u d args b rest,
     outType fh = Some u -> reflect.isByteSlice u = true ->
     f fh = Some d ->
     invocations fh req = [args] ->
     dynCall d args = VBytes b :: rest ->
     (hasError fh = true ->
      exists w, last (VBytes b :: rest) = Some w /\ fst (assertError w) = None) ->
     exchange fh req = Some (http.mkResponse http.StatusOK ∅ b)).
Proof.
  split.
  - intros t args Hin Hb Ha.
    destruct (invoked_with _ _ _ Ha) as (ctx & _ & Hargs & _).
    unfold Invoke_arguments in Hargs. rewrite Hin, Hb in Hargs.
    injection Hargs as <-. by rewrite last_snoc.
  - intros u d args b rest Hout Hb Hf Hinv Hr He.
    destruct (invoked_once _ _ _ Hinv) as (in_ & ctx & d' & _ & _ & Hf' & ->).
    assert (d' = d) as -> by congruence.
    unfold Invoke_results. rewrite Hout, Hb, lookup_last, Hr. simpl.
    destruct (hasError fh); [|done].
    destruct He as (w & Hw & Hn); [done|].
    simpl in Hw. rewrite Hw. simpl. by rewrite Hn.
Qed.

(** X6.  Structs pass through JSON.  With a struct input type the last
    argument of the call is the value the payload decodes to; with a struct
    output type, when the first return value encodes and the function
    reports no error, the answer is 200 and its body is that encoding. *)
Theorem structs_pass_through_json (fh : functionHandler) (req : Request) :
  (forall t args,
     inType fh = Some t -> reflect.isByteSlice t = false ->
     reflect.isStruct t = true ->
     args ∈ invocations fh req ->
     exists data,
       json_Unmarshal (concat (http.chunks (Body req))) t = inl data /\
       last args = Some (VObj data)) /\
  (forall u d args v out,
     outType fh = Some u -> reflect.isByteSlice u = false ->
     reflect.isStruct u = true ->
     f fh = Some d ->
     invocations fh req = [args] ->
     dynCall d args !! 0 = Some v ->
     json_Marshal v = inl out ->
     (hasError fh = true ->
      exists w, last (dynCall d args) = Some w /\ fst (assertError w) = None) ->
     exchange fh req = Some (http.mkResponse http.StatusOK ∅ out)).
Proof.
  split.
  - intros t args Hin Hb Hs Ha.
    destruct (invoked_with _ _ _ Ha) as (ctx & _ & Hargs & _).
    unfold Invoke_arguments in Hargs. rewrite Hin, Hb, Hs in Hargs.
    destruct (json_Unmarshal _ t) as [data|err]; [|done].
    injection Hargs as <-. exists data. by rewrite last_snoc.
  - intros u d args v out Hout Hb Hs Hf Hinv Hv Hm He.
    destruct (invoked_once _ _ _ Hinv) as (in_ & ctx & d' & _ & _ & Hf' & ->).
    assert (d' = d) as -> by congruence.
    unfold Invoke_results. rewrite Hout, Hb, Hs, lookup_last. simpl.
    rewrite Hv. simpl. rewrite Hm. simpl.
    destruct (hasError fh); [|done].
    destruct He as (w & Hw & Hn); [done|].
    rewrite Hw. simpl. by rewrite Hn.
Qed.

(** X7.  The function finds the event in its context.  For a binding that
    takes the context, the first argument of every call is a context on
    which [CloudEvent] returns, found, the headers of the request with its
    timestamp, and which answers every other key as the context of the
    request does. *)
Theorem CloudEvent_inside_function (fh : functionHandler) (req : Request) :
  needsContext fh = true ->
  forall args, args ∈ invocations fh req ->
    exists ctx rest t,
      args = VContext ctx :: rest /\
      CloudEvent ctx = (binaryContext (Header req) t, true) /\
      (http.Get (Header req) "CE-EventTime" = "" /\ t = time.zero \/
       time_Parse time.RFC3339 (http.Get (Header req) "CE-EventTime") = inl t) /\
      forall k, k <> contextKey ->
        context.Value ctx k = context.Value (Context req) k.
Proof.
  intros Hn args Ha.
  destruct (invoked_with _ _ _ Ha) as (ctx & _ & Hargs & t & -> & Ht).
  unfold Invoke_arguments in Hargs. rewrite Hn in Hargs. simpl in Hargs.
  exists (context.WithValue (Context req) contextKey
            (context.cloudEvent (binaryContext (Header req) t))).
  assert (exists rest, args = VContext (context.WithValue (Context req) contextKey
            (context.cloudEvent (binaryContext (Header req) t))) :: rest)
    as [rest ->].
  { revert Hargs. cases; intros; simplify_eq; eauto. }
  exists rest, t. split; [done|]. split; [apply CloudEvent_attached_here|].
  split.
  - destruct (String.eqb (http.Get (Header req) "CE-EventTime") "") eqn:Hts.
    + apply String.eqb_eq in Hts. left. split; [done|congruence].
    + by right.
  - intros k Hk. simpl. by rewrite decide_False by done.
Qed.

End AnswerFacts.

(** ** Bindings and calls *)

Section CallFacts.
Context `{GoEnv}.

Lemma wrap_Ok_inv (d : Dyn) (h : functionHandler) :
  wrap (Some d) = Ok h ->
  violation (dynType d) = None /\ h = bindingOf (Some d) (dynType d).
Proof.
  rewrite wrap_characterised.
  destruct (violation (dynType d)); [done|]. by intros [= <-].
Qed.

(** What passing the five checks means. *)
Lemma violation_None (t : reflect.rtype) :
  violation t = None ->
  bool_decide (reflect.kind t = reflect.Func) = true /\
  match reflect.ins t with
  | [] | [_] => True
  | [c; _] => isCtx c = true
  | _ => False
  end /\
  match reflect.outs t with
  | [] | [_] => True
  | [d; e] => isErr e = true /\ isErr d = false
  | _ => False
  end.
Proof.
  unfold violation.
  destruct (bool_decide (reflect.kind t = reflect.Func)); [|done]. simpl.
  destruct (reflect.ins t) as [|a [|b [|c ins]]];
    destruct (reflect.outs t) as [|x [|y [|z outs]]]; simpl; try done.
  all: try destruct (isCtx a); try destruct (isErr y); try destruct (isErr x);
    simpl; done.
Qed.

(** The argument lists [Invoke] builds for a binding of [wrap]. *)
Lemma binding_arguments (d : Dyn) ctx in_ (args : list Value) :
  violation (dynType d) = None ->
  Invoke_arguments (bindingOf (Some d) (dynType d)) ctx in_ = inl args ->
  (reflect.ins (dynType d) = [] /\ args = []) \/
  (exists c, reflect.ins (dynType d) = [c] /\ isCtx c = true /\
     args = [VContext ctx]) \/
  (exists a x, reflect.ins (dynType d) = [a] /\ isCtx a = false /\
     args = [x] /\ assignable x a = true) \/
  (exists c a x, reflect.ins (dynType d) = [c; a] /\ isCtx c = true /\
     args = [VContext ctx; x] /\ assignable x a = true).
Proof.
  intros (_ & Hi & _)%violation_None. revert Hi.
  unfold Invoke_arguments, bindingOf, dataParam. simpl.
  destruct (reflect.ins (dynType d)) as [|a [|b [|c ins]]]; simpl; [| | |done].
  - intros _ [= <-]. by left.
  - intros _. destruct (isCtx a) eqn:Ha; simpl.
    + intros [= <-]. right; left. eauto.
    + destruct (reflect.isByteSlice a) eqn:Hb.
      * intros [= <-]. right; right; left. exists a, (VBytes in_). eauto.
      * destruct (reflect.isStruct a); [|done].
        destruct (json_Unmarshal in_ a) as [data|]; [|done].
        intros [= <-]. right; right; left. exists a, (VObj data). eauto.
  - intros Ha. rewrite Ha. simpl.
    destruct (reflect.isByteSlice b) eqn:Hb.
    + intros [= <-]. right; right; right. exists a, b, (VBytes in_). eauto.
    + destruct (reflect.isStruct b); [|done].
      destruct (json_Unmarshal in_ b) as [data|]; [|done].
      intros [= <-]. right; right; right. exists a, b, (VObj data). eauto.
Qed.


(** X8.  [wrap] and [Invoke] agree on the parameters.  For a binding [wrap]
    returns, every argument list [Invoke] builds has as many arguments as
    the function has parameters, at most two; the context comes first when
    the binding needs it and nowhere otherwise. *)
Theorem arguments_match_parameters (d : Dyn) (h : functionHandler) ctx in_
    (args : list Value) :
  wrap (Some d) = Ok h ->
  Invoke_arguments h ctx in_ = inl args ->
  length args = reflect.NumIn (dynType d) /\
  (length args <= 2)%nat /\
  (needsContext h = true -> exists rest, args = VContext ctx :: rest) /\
  (needsContext h = false -> forall c, VContext c ∉ args).
Proof.
  intros [Hv ->]%wrap_Ok_inv Ha.
  pose proof Ha as Ha'. unfold Invoke_arguments in Ha'.
  destruct (binding_arguments _ _ _ _ Hv Ha)
    as [(Hi & ->)|[(c & Hi & Hc & ->)|[(a & x & Hi & Hc & -> & Hx)
       |(c & a & x & Hi & Hc & -> & Hx)]]];
    unfold reflect.NumIn, bindingOf in *; simpl in *; rewrite Hi in *; simpl.
  - repeat split; [lia|done|]. intros _ c ?%elem_of_nil. done.
  - rewrite Hc. repeat split; [lia|eauto|done].
  - rewrite Hc in *. repeat split; [lia|done|].
    intros _ c Hin%list_elem_of_singleton. subst x.
    revert Ha'. cases.
  - rewrite Hc. repeat split; [lia|eauto|done].
Qed.


(** X10.  A concrete context parameter is accepted and then panics.  [wrap]
    accepts a first parameter of any type with the methods of
    [context.Context]; when that type is no interface, and is not the type
    of the contexts the package builds either, [Call] refuses the context
    [ServeHTTP] passes: the function is never run, and every request that
    gets as far as the call panics. *)
Theorem concrete_context_parameter_panics (d : Dyn) (h : functionHandler)
    (c : reflect.rtype) (rest : list reflect.rtype) (req : Request) :
  wrap (Some d) = Ok h ->
  reflect.ins (dynType d) = c :: rest ->
  isCtx c = true ->
  contextInterface c = false ->
  c <> valueCtxType ->
  invocations h req = [] /\
  (forall in_ ctx args,
     Method req = http.MethodPost ->
     String.prefix "application/cloudevents"
       (http.Get (Header req) "Content-Type") = false ->
     convertBinary req = Ok (in_, ctx) ->
     Invoke_arguments h ctx in_ = inl args ->
     exchange h req = None).
Proof.
  intros [Hv ->]%wrap_Ok_inv Hi Hc Hn _.
  assert (forall ctx in_ args,
            Invoke_arguments (bindingOf (Some d) (dynType d)) ctx in_ = inl args ->
            callable d args = false) as Hcall.
  { intros ctx in_ args Ha. unfold callable.
    destruct (binding_arguments _ _ _ _ Hv Ha)
      as [(Hi' & ->)|[(c' & Hi' & Hic & ->)|[(a & x & Hi' & Hic & -> & Hx)
         |(c' & a & x & Hi' & Hic & -> & Hx)]]];
      rewrite Hi' in *; simplify_eq; try congruence; simpl.
    - apply andb_false_iff. right. apply andb_false_iff. left. exact Hn.
    - apply andb_false_iff. right. apply andb_false_iff. left. exact Hn. }
  split.
  - unfold invocations. rewrite ServeHTTP_cases.
    destruct (String.eqb (Method req) http.MethodPost); simpl; [|done].
    destruct (if String.prefix _ _ then _ else _) as [[in_ ctx]|err|]; simpl;
      [|done..].
    destruct (Invoke_arguments _ ctx in_) as [args|err] eqn:Ha; simpl; [|done].
    by rewrite (Hcall _ _ _ Ha).
  - intros in_ ctx args Hm%String.eqb_eq Hp Hcb Ha.
    unfold exchange. rewrite ServeHTTP_cases, Hm, Hp, Hcb. simpl.
    by rewrite Ha, (Hcall _ _ _ Ha).
Qed.

End CallFacts.

(** ** Header names *)

Lemma convert_lower (upper : bool) (c : ascii) :
  (let c1 := if http.isUpper c then http.toLower c else c in
   if upper && http.isLower c1 then http.toUpper c1
   else if negb upper && http.isUpper c1 then http.toLower c1 else c1) =
  (if upper && http.isLower c then http.toUpper c
   else if negb upper && http.isUpper c then http.toLower c else c).
Proof.
  destruct upper; destruct c as [[] [] [] [] [] [] [] []]; reflexivity.
Qed.

Lemma valid_lower (c : ascii) :
  http.validHeaderFieldByte (if http.isUpper c then http.toLower c else c) =
  http.validHeaderFieldByte c.
Proof. destruct c as [[] [] [] [] [] [] [] []]; reflexivity. Qed.

Lemma canonicalize_lower (upper : bool) (s : string) :
  http.canonicalize upper (lower s) = http.canonicalize upper s.
Proof.
  revert upper. induction s as [|c s IH]; intros upper; [done|].
  cbn [lower http.canonicalize].
  pose proof (convert_lower upper c) as Hc. cbv zeta in Hc. rewrite Hc.
  by rewrite IH.
Qed.

Lemma validKey_lower (s : string) : validKey (lower s) = validKey s.
Proof.
  unfold validKey. induction s as [|c s IH]; [done|].
  cbn [lower list_ascii_of_string forallb]. by rewrite valid_lower, IH.
Qed.

Lemma canonical_lower (s : string) :
  validKey s = true ->
  http.CanonicalMIMEHeaderKey (lower s) = http.CanonicalMIMEHeaderKey s.
Proof.
  intros Hv. unfold http.CanonicalMIMEHeaderKey.
  pose proof (validKey_lower s) as Hl. unfold validKey in *.
  by rewrite Hl, Hv, canonicalize_lower.
Qed.

Lemma canonical_same_case (k k' : string) :
  validKey k = true -> validKey k' = true -> lower k = lower k' ->
  http.CanonicalMIMEHeaderKey k = http.CanonicalMIMEHeaderKey k'.
Proof.
  intros Hk Hk' Hl.
  by rewrite <- (canonical_lower k), <- (canonical_lower k'), Hl.
Qed.

(** ** Contexts *)

(** X11.  What another package adds to a context changes nothing to what
    [CloudEvent] finds in it, a value under a key of its own or a
    cancellation: the key of the package is no key of theirs. *)
Theorem foreign_layers_keep_cloud_event (ctx : context.Context)
    (layers : list Layer) :
  CloudEvent (fold_left derive layers ctx) = CloudEvent ctx /\
  (forall cex,
     CloudEvent
       (fold_left derive layers
          (context.WithValue ctx contextKey (context.cloudEvent cex)))
     = (cex, true)).
Proof.
  assert (forall c, CloudEvent (fold_left derive layers c) = CloudEvent c) as Hf.
  { induction layers as [|l layers IH] using rev_ind; intros c; [done|].
    rewrite fold_left_app. simpl. destruct l as [ty va v|]; simpl.
    - unfold CloudEvent in *. simpl. apply IH.
    - unfold CloudEvent in *. simpl. apply IH. }
  split; [apply Hf|]. intros cex. by rewrite Hf.
Qed.

Section DecoderMore.
Context `{GoEnv}.

(** X12.  Header names are matched without regard to letter case.  Two
    names made of header field bytes that differ in the case of their
    letters only read the same value of every header map, and a value set
    or sent under one is read under the other.  So the decoder finds the
    identifier of the event under any spelling of [CE-EventID], and so
    does [EventId] of the draft. *)
Theorem header_names_ignore_case (h : http.Header) (k k' v : string) :
  validKey k = true -> validKey k' = true -> lower k = lower k' ->
  http.Get h k = http.Get h k' /\
  http.Get (http.Set_ h k v) k' = v /\
  (h !! http.CanonicalMIMEHeaderKey k = None ->
   http.Get (http.Add h k v) k' = v) /\
  (lower k = "ce-eventid" ->
   forall req,
     Header req = http.Set_ h k v ->
     Draft.EventId (draftContextOf req) = v /\
     forall in_ ctx cex,
       convertBinary req = Ok (in_, ctx) -> CloudEvent ctx = (cex, true) ->
       EventID cex = v).
Proof.
  intros Hk Hk' Hl.
  pose proof (canonical_same_case k k' Hk Hk' Hl) as Hc.
  unfold http.Get at 1 2 3 4, http.Set_ at 1, http.Add. rewrite <- Hc.
  split; [done|]. split; [by rewrite lookup_insert_eq|].
  split; [intros ->; by rewrite lookup_insert_eq|].
  intros Hid req Hh.
  assert (http.Get (Header req) "CE-EventID" = v) as Hget.
  { rewrite Hh. unfold http.Get, http.Set_.
    rewrite <- (canonical_same_case k "CE-EventID" Hk eq_refl) by (by rewrite Hid).
    by rewrite lookup_insert_eq. }
  split; [exact Hget|].
  intros in_ ctx cex. rewrite convertBinary_cases.
  destruct (if String.eqb _ _ then _ else _) as [t|e]; [|done].
  destruct (http.failure (Body req)); [done|].
  intros [= <- <-]. rewrite CloudEvent_attached_here. by intros [= <-].
Qed.

(** X13.  The decoder reads eight headers and nothing else of the header map.
    Two requests that agree on them, on the body and on the context decode
    alike, whatever other headers they carry; and the extensions of a
    decoded event are always empty. *)
Theorem decoder_ignores_other_headers (req req' : Request) :
  (forall k, k ∈ decodedHeaders ->
     http.Get (Header req) k = http.Get (Header req') k) ->
  Body req = Body req' ->
  Context req = Context req' ->
  convertBinary req = convertBinary req' /\
  (forall in_ ctx cex,
     convertBinary req = Ok (in_, ctx) -> CloudEvent ctx = (cex, true) ->
     Extensions cex = ∅).
Proof.
  intros Hh Hb Hc. split.
  - rewrite !convertBinary_cases, Hb, Hc. unfold binaryContext.
    rewrite !(Hh _) by (unfold decodedHeaders; set_solver).
    done.
  - intros in_ ctx cex. rewrite convertBinary_cases.
    destruct (if String.eqb _ _ then _ else _) as [t|e]; [|done].
    destruct (http.failure (Body req)); [done|].
    intros [= <- <-]. rewrite CloudEvent_attached_here. by intros [= <-].
Qed.

(** X14.  The draft and the decoder read the same headers.  On every request
    the decoder accepts, [EventId] of the draft is the [EventID] of the
    decoded event; with a timestamp header, [EventTime] of the draft is its
    [EventTime]; without one the decoded event has the zero time, where the
    draft returns what [time.Parse] makes of the empty string. *)
Theorem draft_and_decoder_agree (req : Request) (in_ : list byte)
    (ctx : context.Context) (cex : CloudEventContext) :
  convertBinary req = Ok (in_, ctx) ->
  CloudEvent ctx = (cex, true) ->
  Draft.EventId (draftContextOf req) = EventID cex /\
  (http.Get (Header req) "CE-EventTime" <> "" ->
   Draft.EventTime (draftContextOf req) = inl (EventTime cex)) /\
  (http.Get (Header req) "CE-EventTime" = "" ->
   EventTime cex = time.zero /\
   Draft.EventTime (draftContextOf req) = time_Parse time.RFC3339 "").
Proof.
  rewrite convertBinary_cases.
  destruct (String.eqb (http.Get (Header req) "CE-EventTime") "") eqn:Hts.
  - apply String.eqb_eq in Hts.
    destruct (http.failure (Body req)); [done|].
    intros [= <- <-]. rewrite CloudEvent_attached_here. intros [= <-].
    split; [reflexivity|]. split; [done|]. intros _. split; [done|].
    unfold Draft.EventTime, draftContextOf. rewrite draft_getHeader.
    change (http.Get (Header req) "Ce-Eventtime")
      with (http.Get (Header req) "CE-EventTime").
    by rewrite Hts.
  - apply String.eqb_neq in Hts.
    destruct (time_Parse _ _) as [t|e] eqn:Hp; [|done].
    destruct (http.failure (Body req)); [done|].
    intros [= <- <-]. rewrite CloudEvent_attached_here. intros [= <-].
    split; [reflexivity|]. split; [|done]. intros _.
    unfold Draft.EventTime, draftContextOf. rewrite draft_getHeader.
    exact Hp.
Qed.

End DecoderMore.

(** ** The draft *)

Section DraftMore.
Context `{GoEnv}.

Lemma draft_wrap_characterised (badVerb : reflect.rtype -> string) (d : Dyn) :
  Draft.wrap badVerb (Some d) =
  match violation (dynType d) with
  | Some k => Err (draftSignatureError badVerb k (dynType d))
  | None => Ok (bindingOf (Some d) (dynType d))
  end.
Proof.
  destruct d as [[name k el ins outs ms] call].
  unfold Draft.wrap, violation, bindingOf, draftSignatureError; simpl.
  unfold reflect.NumIn, reflect.NumOut, reflect.In, reflect.Out; simpl.
  case_bool_decide; simpl; [|done].
  destruct ins as [|a [|b [|c ins]]]; simpl.
  all: destruct outs as [|x [|y [|z outs]]]; simpl.
  all: unfold isCtx, isErr, set_needsContext, set_inType, set_hasError,
         set_outType; simpl.
  all: repeat match goal with
       | |- context [reflect.Implements ?t ?u] =>
           destruct (reflect.Implements t u) eqn:?; simpl
       end.
  all: reflexivity.
Qed.

(** X15.  The draft analyses signatures as the handler does.  Whatever [fmt]
    prints for the draft's verb, [wrap] of the draft returns a binding
    exactly when [wrap] of the handler does, and then the same one; it
    refuses by the same check, with the message that differs in the
    printing of the type only; and it panics on nil as the handler does. *)
Theorem draft_wrap_same_analysis (badVerb : reflect.rtype -> string)
    (function : option Dyn) :
  (forall h, Draft.wrap badVerb function = Ok h <-> wrap function = Ok h) /\
  (Draft.wrap badVerb function = Panic <-> wrap function = Panic) /\
  (forall e, wrap function = Err e ->
     exists k t,
       TypeOf function = Some t /\
       e = signatureError k t /\
       Draft.wrap badVerb function = Err (draftSignatureError badVerb k t)) /\
  ((forall t, badVerb t = reflect.Name t) ->
   Draft.wrap badVerb function = wrap function).
Proof.
  destruct function as [d|]; [|by repeat split].
  rewrite draft_wrap_characterised, wrap_characterised.
  destruct (violation (dynType d)) as [k|]; repeat split; try done.
  - intros e [= <-]. by exists k, (dynType d).
  - intros Hb. f_equal. unfold draftSignatureError, signatureError, Draft.Errorf_r.
    rewrite Hb. destruct k; by rewrite ?append_empty_r.
Qed.

(** One request to the draft, outcome by outcome. *)
Lemma draft_ServeHTTP_cases (fh : functionHandler) (req : Request) :
  Draft.ServeHTTP req (start fh) =
  if negb (String.eqb (Method req) http.MethodPost) then
    (Some tt, mkMachine fh
       (http.WriteHeader http.StatusMethodNotAllowed http.newResponseWriter) [])
  else
    match http.failure (Body req) with
    | Some _ =>
        (Some tt, mkMachine fh
           (http.WriteHeader http.StatusExpectationFailed http.newResponseWriter) [])
    | None =>
        match Draft.Invoke_arguments fh (draftContextOf req)
                (concat (http.chunks (Body req))) with
        | None => (None, start fh)
        | Some (inr err) =>
            (Some tt, mkMachine fh
               (http.Write (bytes (Error err))
                  (http.WriteHeader http.StatusInternalServerError
                     http.newResponseWriter)) [])
        | Some (inl args) =>
            match f fh with
            | Some d =>
                if callable d args then
                  match Draft.Invoke_results fh (dynCall d args) with
                  | Some (out, Some err) =>
                      (Some tt, mkMachine fh
                         (http.Write (bytes (Error err))
                            (http.WriteHeader http.StatusInternalServerError
                               http.newResponseWriter)) [args])
                  | Some (out, None) =>
                      (Some tt, mkMachine fh
                         (http.Write out
                            (http.WriteHeader http.StatusOK http.newResponseWriter))
                         [args])
                  | None => (None, mkMachine fh http.newResponseWriter [args])
                  end
                else (None, start fh)
            | None => (None, start fh)
            end
        end
    end.
Proof.
  unfold Draft.ServeHTTP, ReadAll, draftContextOf.
  destruct (String.eqb (Method req) http.MethodPost); simpl; [|done].
  destruct (http.failure (Body req)); simpl; [done|].
  run. rewrite draft_Invoke_run. simpl.
  destruct (Draft.Invoke_arguments _ _ _) as [[args|err]|]; simpl; [|done..].
  destruct (f fh) as [d|]; [|done].
  destruct (callable d args); [|done].
  by destruct (Draft.Invoke_results fh (dynCall d args)) as [[out [err|]]|].
Qed.

Lemma draft_results_empty (fh : functionHandler) (response : list Value) out err :
  Draft.Invoke_results fh response = Some (out, err) -> out = [].
Proof.
  unfold Draft.Invoke_results.
  destruct (outType fh); simpl; [destruct (response !! 0); simpl; [|done]|];
    (destruct (hasError fh); simpl; [destruct (response !! _); simpl; [|done]|]);
    by intros [= <- _].
Qed.

(** X16.  The draft returns no data.  Its answers carry no header, and a body
    only with status 500, the text of an error: a request with another
    method is answered 405, an unreadable body 417, and whatever the
    function returns, the body of a 200 is empty.  The function is called at
    most once. *)
Theorem draft_returns_no_data (fh : functionHandler) (req : Request) :
  (length (Draft.invocations fh req) <= 1)%nat /\
  forall r, Draft.exchange fh req = Some r ->
    http.ResponseHeader r = ∅ /\
    ((http.StatusCode r = http.StatusMethodNotAllowed /\
      Method req <> http.MethodPost /\ http.ResponseBody r = [] /\
      Draft.invocations fh req = []) \/
     (http.StatusCode r = http.StatusExpectationFailed /\
      (exists e, http.failure (Body req) = Some e) /\ http.ResponseBody r = [] /\
      Draft.invocations fh req = []) \/
     (http.StatusCode r = http.StatusInternalServerError /\
      exists err, http.ResponseBody r = bytes (Error err)) \/
     (http.StatusCode r = http.StatusOK /\ http.ResponseBody r = [] /\
      exists args, Draft.invocations fh req = [args])).
Proof.
  unfold Draft.invocations, Draft.exchange. rewrite draft_ServeHTTP_cases.
  destruct (String.eqb (Method req) http.MethodPost) eqn:Hm; simpl.
  - destruct (http.failure (Body req)) as [e|]; simpl.
    { split; [lia|]. intros r [= <-]. split; [done|]. right; left. eauto. }
    destruct (Draft.Invoke_arguments _ _ _) as [[args|err]|]; simpl.
    + destruct (f fh) as [d|]; simpl; [|split; [lia|done]].
      destruct (callable d args); simpl; [|split; [lia|done]].
      destruct (Draft.Invoke_results fh (dynCall d args)) as [[out [err|]]|] eqn:Hr;
        simpl; (split; [lia|]); [| |done].
      * intros r [= <-]. split; [done|]. right; right; left. eauto.
      * apply draft_results_empty in Hr as ->.
        intros r [= <-]. split; [done|]. right; right; right. eauto.
    + split; [lia|]. intros r [= <-]. split; [done|]. right; right; left. eauto.
    + split; [lia|done].
  - apply String.eqb_neq in Hm. split; [lia|]. intros r [= <-].
    split; [done|]. by left.
Qed.

(** X17.  The draft drops the payload unless the input type is a struct.  A
    function taking a byte slice, or any type that is neither a struct nor
    an array of bytes, is called with the zero value of its input type,
    whatever the body of the request; with an array of bytes as input type
    every request with a readable body panics before the call. *)
Theorem draft_drops_the_payload (fh : functionHandler) (req : Request)
    (t : reflect.rtype) :
  inType fh = Some t ->
  (reflect.isByteSlice t = true \/
   reflect.isStruct t = false /\ Draft.isByteArray t = false ->
   forall args, args ∈ Draft.invocations fh req ->
     last args = Some (reflect_Zero t)) /\
  (Draft.isByteArray t = true ->
   Method req = http.MethodPost ->
   http.failure (Body req) = None ->
   Draft.exchange fh req = None /\ Draft.invocations fh req = []).
Proof.
  intros Hin. split.
  - intros Ht args (in_ & Ha)%draft_invoked.
    assert (reflect.isStruct t = false /\ Draft.isByteArray t = false) as [Hs Hb].
    { destruct Ht as [Hb|]; [|done].
      unfold reflect.isByteSlice, reflect.isStruct, Draft.isByteArray in *.
      apply andb_true_iff in Hb as [Hk%bool_decide_eq_true _].
      rewrite Hk. split; [by apply bool_decide_eq_false|].
      apply andb_false_iff. left. by apply bool_decide_eq_false. }
    unfold Draft.Invoke_arguments in Ha. rewrite Hin, Hs, Hb in Ha.
    injection Ha as <-. by rewrite last_snoc.
  - intros Hb Hm%String.eqb_eq Hf.
    assert (reflect.isStruct t = false) as Hs.
    { unfold reflect.isStruct, Draft.isByteArray in *.
      apply andb_true_iff in Hb as [Hk%bool_decide_eq_true _].
      rewrite Hk. by apply bool_decide_eq_false. }
    unfold Draft.exchange, Draft.invocations.
    rewrite draft_ServeHTTP_cases, Hm, Hf. simpl.
    unfold Draft.Invoke_arguments. by rewrite Hin, Hs, Hb.
Qed.

End DraftMore.

(** ** Start *)

Section StartFacts.
Context `{GoEnv}.

(** X18.  [Start] serves or dies.  It listens exactly for the functions that pass
    the five checks of [wrap]: then the handler registered under [/] is the
    binding of the function and the address is a colon and the value of
    [PORT].  For a function that fails a check the process ends with the
    message of that check, and for nil it panics; in neither case is a
    handler registered. *)
Theorem Start_serves_or_dies (getenv : string -> string) (function : option Dyn) :
  match Start getenv function with
  | Listening pattern h addr logged =>
      pattern = "/" /\ addr = ":" ++ getenv "PORT" /\
      logged = "Listening on :" ++ getenv "PORT" /\
      exists d, function = Some d /\ violation (dynType d) = None /\
                h = bindingOf function (dynType d)
  | Fatal message =>
      exists d k, function = Some d /\ violation (dynType d) = Some k /\
                  message = Error (signatureError k (dynType d))
  | Panicked => function = None
  end.
Proof.
  unfold Start. destruct function as [d|]; [|done].
  rewrite wrap_characterised.
  destruct (violation (dynType d)) as [k|] eqn:Hv; eauto 10.
Qed.

End StartFacts.

(** ** These properties at concrete inputs *)

Section MoreExamples.
#[local] Existing Instance Demo.env.

(** X1, at [func([]byte) []byte]: a POST is answered 200 with the output
    after one call, a GET 405 with no call. *)
Lemma answers_have_four_shapes_witness :
  (length (invocations (Demo.handlerOf Demo.echoBytes) (Demo.post ∅ "hi")) <= 1)%nat /\
  exchange (Demo.handlerOf Demo.echoBytes) (Demo.post ∅ "hi") =
    Some (http.mkResponse http.StatusOK ∅ (bytes "hi")) /\
  exchange (Demo.handlerOf Demo.echoBytes) (Demo.get ∅) =
    Some (http.mkResponse http.StatusMethodNotAllowed ∅ []).
Proof.
  split; [apply (answers_have_four_shapes (Demo.handlerOf Demo.echoBytes)
                   (Demo.post ∅ "hi"))|].
  split; [reflexivity|].
  apply (answers_have_four_shapes (Demo.handlerOf Demo.echoBytes) (Demo.get ∅)).
  differs.
Defined.

(** X2, at a body that breaks off after three bytes. *)
Lemma body_read_failure_answers_417_witness :
  Method (Demo.brokenPost ∅) = http.MethodPost /\
  String.prefix "application/cloudevents"
    (http.Get (Header (Demo.brokenPost ∅)) "Content-Type") = false /\
  http.Get (Header (Demo.brokenPost ∅)) "CE-EventTime" = "" /\
  http.failure (Body (Demo.brokenPost ∅)) = Some (dynError "unexpected EOF") /\
  exchange (Demo.handlerOf Demo.echo) (Demo.brokenPost ∅) =
    Some (http.mkResponse http.StatusExpectationFailed
            (http.Set_ ∅ "Content-Type" "text/plain") (bytes "unexpected EOF")) /\
  invocations (Demo.handlerOf Demo.echo) (Demo.brokenPost ∅) = [].
Proof.
  do 4 (split; [reflexivity|]).
  apply (body_read_failure_answers_417 (Demo.handlerOf Demo.echo)
           (Demo.brokenPost ∅) (dynError "unexpected EOF"));
    [reflexivity|reflexivity|left; reflexivity|reflexivity].
Defined.

(** X3, at a body that is no JSON text. *)
Lemma undecodable_payload_answers_500_witness :
  convertBinary (Demo.post Demo.eventHeaders "oops") =
    Ok (bytes "oops", Demo.eventContext) /\
  inType (Demo.handlerOf Demo.echo) = Some Demo.tMyData /\
  reflect.isByteSlice Demo.tMyData = false /\
  reflect.isStruct Demo.tMyData = true /\
  json_Unmarshal (bytes "oops") Demo.tMyData =
    inr (dynError "json: cannot unmarshal into Go value") /\
  exchange (Demo.handlerOf Demo.echo) (Demo.post Demo.eventHeaders "oops") =
    Some (http.mkResponse http.StatusInternalServerError ∅
            (bytes "json: cannot unmarshal into Go value")) /\
  invocations (Demo.handlerOf Demo.echo) (Demo.post Demo.eventHeaders "oops") = [].
Proof.
  do 5 (split; [reflexivity|]).
  apply (undecodable_payload_answers_500 (Demo.handlerOf Demo.echo)
           (Demo.post Demo.eventHeaders "oops") (bytes "oops") Demo.eventContext
           Demo.tMyData (dynError "json: cannot unmarshal into Go value"));
    reflexivity.
Defined.

(** X4, at [func(main.MyData) main.MyData] returning a value with no JSON
    encoding. *)
Lemma encoding_failure_answers_500_witness :
  hasError (Demo.handlerOf Demo.unencodablePlain) = false /\
  outType (Demo.handlerOf Demo.unencodablePlain) = Some Demo.tMyData /\
  invocations (Demo.handlerOf Demo.unencodablePlain) (Demo.post ∅ "{}") =
    [[VObj (Some (bytes "{}"))]] /\
  dynCall Demo.unencodablePlain [VObj (Some (bytes "{}"))] !! 0 = Some (VObj None) /\
  json_Marshal (VObj None) = inr (dynError "json: unsupported type: chan int") /\
  exchange (Demo.handlerOf Demo.unencodablePlain) (Demo.post ∅ "{}") =
    Some (http.mkResponse http.StatusInternalServerError ∅
            (bytes "json: unsupported type: chan int")).
Proof.
  do 5 (split; [reflexivity|]).
  apply (encoding_failure_answers_500 (Demo.handlerOf Demo.unencodablePlain)
           (Demo.post ∅ "{}") Demo.unencodablePlain [VObj (Some (bytes "{}"))]
           Demo.tMyData (VObj None) (dynError "json: unsupported type: chan int"));
    reflexivity.
Defined.

(** X5, at [func([]byte) []byte]. *)
Lemma bytes_pass_through_witness :
  invocations (Demo.handlerOf Demo.echoBytes) (Demo.post ∅ "hi") =
    [[VBytes (bytes "hi")]] /\
  last ([VBytes (bytes "hi")] : list Value) =
    Some (VBytes (concat (http.chunks (Body (Demo.post ∅ "hi"))))) /\
  dynCall Demo.echoBytes [VBytes (bytes "hi")] = [VBytes (bytes "hi")] /\
  exchange (Demo.handlerOf Demo.echoBytes) (Demo.post ∅ "hi") =
    Some (http.mkResponse http.StatusOK ∅ (bytes "hi")).
Proof.
  destruct (bytes_pass_through (Demo.handlerOf Demo.echoBytes) (Demo.post ∅ "hi"))
    as [Hin Hout].
  split; [reflexivity|]. split; [|split; [reflexivity|]].
  - apply (Hin Demo.tBytes); [reflexivity..|].
    change (invocations (Demo.handlerOf Demo.echoBytes) (Demo.post ∅ "hi"))
      with ([[VBytes (bytes "hi")]] : list (list Value)).
    apply list_elem_of_here.
  - apply (Hout Demo.tBytes Demo.echoBytes [VBytes (bytes "hi")] (bytes "hi") []);
      [reflexivity..|].
    intros X. vm_compute in X. discriminate X.
Defined.

(** X6, at [func(context.Context, main.MyData) (main.MyData, error)]. *)
Lemma structs_pass_through_json_witness :
  invocations (Demo.handlerOf Demo.echo) (Demo.post Demo.eventHeaders "{}") =
    [[VContext Demo.eventContext; VObj (Some (bytes "{}"))]] /\
  (exists data,
     json_Unmarshal (concat (http.chunks (Body (Demo.post Demo.eventHeaders "{}"))))
       Demo.tMyData = inl data /\
     last ([VContext Demo.eventContext; VObj (Some (bytes "{}"))] : list Value) =
       Some (VObj data)) /\
  dynCall Demo.echo [VContext Demo.eventContext; VObj (Some (bytes "{}"))] =
    [VObj (Some (bytes "{}")); VNil] /\
  exchange (Demo.handlerOf Demo.echo) (Demo.post Demo.eventHeaders "{}") =
    Some (http.mkResponse http.StatusOK ∅ (bytes "{}")).
Proof.
  destruct (structs_pass_through_json (Demo.handlerOf Demo.echo)
              (Demo.post Demo.eventHeaders "{}")) as [Hin Hout].
  split; [reflexivity|]. split; [|split; [reflexivity|]].
  - apply (Hin Demo.tMyData); [reflexivity..|].
    change (invocations (Demo.handlerOf Demo.echo) (Demo.post Demo.eventHeaders "{}"))
      with ([[VContext Demo.eventContext; VObj (Some (bytes "{}"))]]
            : list (list Value)).
    apply list_elem_of_here.
  - apply (Hout Demo.tMyData Demo.echo
             [VContext Demo.eventContext; VObj (Some (bytes "{}"))]
             (VObj (Some (bytes "{}"))) (bytes "{}")); [reflexivity..|].
    intros _. exists VNil. split; reflexivity.
Defined.

(** X7, at [func(context.Context) error] and the request of
    [Demo.eventHeaders]. *)
Lemma CloudEvent_inside_function_witness :
  needsContext (Demo.handlerOf Demo.onlyContext) = true /\
  invocations (Demo.handlerOf Demo.onlyContext) (Demo.post Demo.eventHeaders "{}") =
    [[VContext Demo.eventContext]] /\
  exists ctx rest t,
    ([VContext Demo.eventContext] : list Value) = VContext ctx :: rest /\
    CloudEvent ctx = (binaryContext Demo.eventHeaders t, true) /\
    (http.Get Demo.eventHeaders "CE-EventTime" = "" /\ t = time.zero \/
     time_Parse time.RFC3339 (http.Get Demo.eventHeaders "CE-EventTime") = inl t) /\
    forall k, k <> contextKey ->
      context.Value ctx k = context.Value context.Background k.
Proof.
  do 2 (split; [reflexivity|]).
  apply (CloudEvent_inside_function (Demo.handlerOf Demo.onlyContext)
           (Demo.post Demo.eventHeaders "{}")); [reflexivity|].
  change (invocations (Demo.handlerOf Demo.onlyContext)
            (Demo.post Demo.eventHeaders "{}"))
    with ([[VContext Demo.eventContext]] : list (list Value)).
  apply list_elem_of_here.
Defined.

(** X8, at [func(context.Context, main.MyData) (main.MyData, error)]. *)
Lemma arguments_match_parameters_witness :
  wrap (Some Demo.echo) = Ok (Demo.handlerOf Demo.echo) /\
  Invoke_arguments (Demo.handlerOf Demo.echo) Demo.eventContext (bytes "{}") =
    inl [VContext Demo.eventContext; VObj (Some (bytes "{}"))] /\
  length ([VContext Demo.eventContext; VObj (Some (bytes "{}"))] : list Value) =
    reflect.NumIn (dynType Demo.echo) /\
  (needsContext (Demo.handlerOf Demo.echo) = true ->
   exists rest,
     ([VContext Demo.eventContext; VObj (Some (bytes "{}"))] : list Value) =
     VContext Demo.eventContext :: rest).
Proof.
  do 2 (split; [reflexivity|]).
  destruct (arguments_match_parameters Demo.echo (Demo.handlerOf Demo.echo)
              Demo.eventContext (bytes "{}")
              [VContext Demo.eventContext; VObj (Some (bytes "{}"))])
    as (Hlen & _ & Hctx & _); [reflexivity..|].
  by split.
Defined.


(** X10, at [func(main.MyCtx)], [main.MyCtx] being a struct with the
    methods of [context.Context]. *)
Lemma concrete_context_parameter_panics_witness :
  wrap (Some Demo.takesMyCtx) = Ok (Demo.handlerOf Demo.takesMyCtx) /\
  reflect.ins (dynType Demo.takesMyCtx) = [Demo.tMyCtx] /\
  isCtx Demo.tMyCtx = true /\
  contextInterface Demo.tMyCtx = false /\
  Demo.tMyCtx <> valueCtxType /\
  invocations (Demo.handlerOf Demo.takesMyCtx) (Demo.post ∅ "") = [] /\
  exchange (Demo.handlerOf Demo.takesMyCtx) (Demo.post ∅ "") = None.
Proof.
  do 4 (split; [reflexivity|]). split; [discriminate|].
  destruct (concrete_context_parameter_panics Demo.takesMyCtx
              (Demo.handlerOf Demo.takesMyCtx) Demo.tMyCtx [] (Demo.post ∅ ""))
    as [Hnone Hpanic]; [reflexivity..|discriminate|].
  split; [exact Hnone|].
  apply (Hpanic (bytes "")
           (context.WithValue context.Background contextKey
              (context.cloudEvent (binaryContext ∅ time.zero)))
           [VContext
              (context.WithValue context.Background contextKey
                 (context.cloudEvent (binaryContext ∅ time.zero)))]);
    reflexivity.
Defined.

(** X11, at a value under another package's key and a cancellation, put
    on the context of [Demo.eventHeaders]. *)
Lemma foreign_layers_keep_cloud_event_witness :
  CloudEvent
    (context.WithCancel
       (context.WithValue Demo.eventContext (context.otherKey "main.key" "0")
          (context.otherVal "user")))
  = (binaryContext Demo.eventHeaders (time.Date 2020 1 1 0 0 0 0 0), true).
Proof.
  apply (proj2 (foreign_layers_keep_cloud_event context.Background
                  [valueLayer "main.key" "0" (context.otherVal "user"); cancelLayer])
           (binaryContext Demo.eventHeaders (time.Date 2020 1 1 0 0 0 0 0))).
Defined.

(** X12, at [ce-eventid] and [CE-EventID]. *)
Lemma header_names_ignore_case_witness :
  validKey "ce-eventid" = true /\ validKey "CE-EventID" = true /\
  lower "ce-eventid" = lower "CE-EventID" /\
  http.Get (http.Set_ ∅ "ce-eventid" "abc-123") "CE-EventID" = "abc-123" /\
  Draft.EventId
    (draftContextOf (Demo.post (http.Set_ ∅ "ce-eventid" "abc-123") "{}")) = "abc-123".
Proof.
  do 3 (split; [reflexivity|]).
  destruct (header_names_ignore_case ∅ "ce-eventid" "CE-EventID" "abc-123")
    as (_ & Hset & _ & Hdec); [reflexivity..|].
  split; [exact Hset|].
  apply (Hdec eq_refl (Demo.post (http.Set_ ∅ "ce-eventid" "abc-123") "{}")).
  reflexivity.
Defined.

(** X13, at the request of [Demo.eventHeaders] and the same request with
    one more header. *)
Lemma decoder_ignores_other_headers_witness :
  http.Get (http.Add Demo.eventHeaders "X-Request-Id" "7") "X-Request-Id" = "7" /\
  http.Get Demo.eventHeaders "X-Request-Id" = "" /\
  convertBinary (Demo.post Demo.eventHeaders "{}") =
  convertBinary (Demo.post (http.Add Demo.eventHeaders "X-Request-Id" "7") "{}").
Proof.
  do 2 (split; [reflexivity|]).
  apply (decoder_ignores_other_headers (Demo.post Demo.eventHeaders "{}")
           (Demo.post (http.Add Demo.eventHeaders "X-Request-Id" "7") "{}"));
    [|reflexivity..].
  intros k Hk. unfold decodedHeaders in Hk.
  repeat (apply elem_of_cons in Hk as [->|Hk]; [reflexivity|]).
  by apply elem_of_nil in Hk.
Defined.

(** X14, at the request of [Demo.eventHeaders]. *)
Lemma draft_and_decoder_agree_witness :
  convertBinary (Demo.post Demo.eventHeaders "{}") = Ok (bytes "{}", Demo.eventContext) /\
  Draft.EventId (draftContextOf (Demo.post Demo.eventHeaders "{}")) = "abc-123" /\
  Draft.EventTime (draftContextOf (Demo.post Demo.eventHeaders "{}")) =
    inl (time.Date 2020 1 1 0 0 0 0 0).
Proof.
  split; [reflexivity|].
  destruct (draft_and_decoder_agree (Demo.post Demo.eventHeaders "{}") (bytes "{}")
              Demo.eventContext
              (binaryContext Demo.eventHeaders (time.Date 2020 1 1 0 0 0 0 0)))
    as (Hid & Htime & _); [reflexivity..|].
  split; [exact Hid|]. apply Htime. differs.
Defined.

(** X15, at [func(int, int, int)] and at
    [func(context.Context, main.MyData) (main.MyData, error)]. *)
Lemma draft_wrap_same_analysis_witness :
  wrap (Some Demo.threeArgs) =
    Err (errorString "func(int, int, int) takes too many arguments") /\
  (exists k t,
     TypeOf (Some Demo.threeArgs) = Some t /\
     errorString "func(int, int, int) takes too many arguments" = signatureError k t /\
     Draft.wrap Demo.badVerb (Some Demo.threeArgs) =
       Err (draftSignatureError Demo.badVerb k t)) /\
  wrap (Some Demo.echo) = Ok (Demo.handlerOf Demo.echo) /\
  Draft.wrap Demo.badVerb (Some Demo.echo) = Ok (Demo.handlerOf Demo.echo).
Proof.
  split; [reflexivity|]. split; [|split; [reflexivity|]].
  - apply (proj1 (proj2 (proj2
             (draft_wrap_same_analysis Demo.badVerb (Some Demo.threeArgs))))).
    reflexivity.
  - apply (proj1 (draft_wrap_same_analysis Demo.badVerb (Some Demo.echo))).
    reflexivity.
Defined.

(** X16, at [func([]byte) []byte]: the draft answers an empty 200 where
    the handler returns the payload. *)
Lemma draft_returns_no_data_witness :
  Draft.exchange (Demo.handlerOf Demo.echoBytes) (Demo.post ∅ "hi") =
    Some (http.mkResponse http.StatusOK ∅ []) /\
  (length (Draft.invocations (Demo.handlerOf Demo.echoBytes) (Demo.post ∅ "hi")) <= 1)%nat /\
  http.ResponseHeader (http.mkResponse http.StatusOK ∅ []) = ∅.
Proof.
  destruct (draft_returns_no_data (Demo.handlerOf Demo.echoBytes) (Demo.post ∅ "hi"))
    as [Hlen Hshape].
  split; [reflexivity|]. split; [exact Hlen|].
  apply (Hshape (http.mkResponse http.StatusOK ∅ [])). reflexivity.
Defined.

(** X17, at [func([]byte)] and at [func([16]byte)]. *)
Lemma draft_drops_the_payload_witness :
  (inType (Demo.handlerOf Demo.takesBytes) = Some Demo.tBytes /\
   reflect.isByteSlice Demo.tBytes = true /\
   Draft.invocations (Demo.handlerOf Demo.takesBytes) (Demo.post ∅ "hi") =
     [[VBytes []]] /\
   last ([VBytes []] : list Value) = Some (reflect_Zero Demo.tBytes)) /\
  (inType (Demo.handlerOf Demo.takesByteArray) = Some Demo.tByteArray /\
   Draft.isByteArray Demo.tByteArray = true /\
   Draft.exchange (Demo.handlerOf Demo.takesByteArray) (Demo.post ∅ "hi") = None /\
   Draft.invocations (Demo.handlerOf Demo.takesByteArray) (Demo.post ∅ "hi") = []).
Proof.
  split.
  - do 3 (split; [reflexivity|]).
    destruct (draft_drops_the_payload (Demo.handlerOf Demo.takesBytes)
                (Demo.post ∅ "hi") Demo.tBytes) as [Hzero _]; [reflexivity|].
    apply Hzero; [left; reflexivity|].
    change (Draft.invocations (Demo.handlerOf Demo.takesBytes) (Demo.post ∅ "hi"))
      with ([[VBytes []]] : list (list Value)).
    apply list_elem_of_here.
  - do 2 (split; [reflexivity|]).
    destruct (draft_drops_the_payload (Demo.handlerOf Demo.takesByteArray)
                (Demo.post ∅ "hi") Demo.tByteArray) as [_ Hpanic]; [reflexivity|].
    apply Hpanic; reflexivity.
Defined.

(** X18, at [PORT=8080], for a function [wrap] accepts and for
    [func(int, int, int)]. *)
Lemma Start_serves_or_dies_witness :
  Start Demo.getenv (Some Demo.echo) =
    Listening "/" (Demo.handlerOf Demo.echo) ":8080" "Listening on :8080" /\
  violation (dynType Demo.echo) = None /\
  Start Demo.getenv (Some Demo.threeArgs) =
    Fatal "func(int, int, int) takes too many arguments" /\
  violation (dynType Demo.threeArgs) = Some TooManyArguments.
Proof.
  pose proof (Start_serves_or_dies Demo.getenv (Some Demo.echo)) as Hok.
  pose proof (Start_serves_or_dies Demo.getenv (Some Demo.threeArgs)) as Hbad.
  assert (Start Demo.getenv (Some Demo.echo) =
            Listening "/" (Demo.handlerOf Demo.echo) ":8080" "Listening on :8080")
    as Eok by reflexivity.
  assert (Start Demo.getenv (Some Demo.threeArgs) =
            Fatal "func(int, int, int) takes too many arguments")
    as Ebad by reflexivity.
  rewrite Eok in Hok. rewrite Ebad in Hbad.
  destruct Hok as (_ & _ & _ & d & [= <-] & Hv & _).
  destruct Hbad as (d & k & [= <-] & Hk & Hm).
  split; [exact Eok|]. split; [exact Hv|]. split; [exact Ebad|].
  rewrite Hk. f_equal.
  destruct k; try (vm_compute in Hm; discriminate Hm). reflexivity.
Defined.

End MoreExamples.
